(** * download.py: the FaceForensics++ downloader, embedded and verified

    The script is sequential Python that talks to three things outside
    itself: the file system, the network (through [urllib.request]) and
    the console.  The embedding keeps the script's own control flow and
    string handling as Rocq functions in a state-and-exception monad, and
    takes everything the outside world decides (what a request returns,
    which temporary names are tried, what the clock shows) from a [world]
    record, so that every statement below holds for all behaviours of the
    network and can still be evaluated on a concrete one. *)

From Stdlib Require Import ZArith QArith String Ascii.
From stdpp Require Import gmap strings list pretty.

Local Close Scope Q_scope.

(** ** Python values used by the script *)

Module Py.

(** An exception object: its class name and [str(e)].  Only subclasses
    of [Exception] are modelled; [KeyboardInterrupt] and [SystemExit]
    end the process and are outside the embedding. *)
Inductive exn := Exn (cls : string) (msg : string).

Definition str_exn (e : exn) : string := let 'Exn _ msg := e in msg.
Definition cls_exn (e : exn) : string := let 'Exn cls _ := e in cls.

Inductive result (A : Type) :=
| Ok (a : A)
| Raise (e : exn).
Arguments Ok {A} a.
Arguments Raise {A} e.

(** [sub in s] on strings. *)
Definition str_in (sub s : string) : bool :=
  match index 0 sub s with Some _ => true | None => false end.

(** [sep.join(parts)]. *)
Definition str_join (sep : string) (parts : list string) : string :=
  String.concat sep parts.

(** Truth value of a string: [''] is falsy. *)
Definition truthy (s : string) : bool :=
  match s with EmptyString => false | _ => true end.

(** [int(q)]: truncation towards zero. *)
Definition int_of (q : Q) : Z := Z.quot (Qnum q) (Zpos (Qden q)).

(** [o is not None] for an optional argument. *)
Definition is_given {A} (o : option A) : bool :=
  match o with Some _ => true | None => false end.

(** [l[:n]] for a positive [n]. *)
Definition slice_to {A} (n : Z) (l : list A) : list A := take (Z.to_nat n) l.

End Py.
Export Py.

(** ** The outside world *)

(** A node of the file system: a regular file with its bytes, or a
    directory.  Paths are compared as strings (a flat name space). *)
Inductive node :=
| File (body : list Byte.byte)
| Dir.

Abbreviation filesystem := (gmap string node).

(** The only SSL context the script ever builds. *)
Inductive ssl_context := unverified_context.

(** What the server does with one [urlretrieve] call.  [Refused e]: the
    call raises [e] before a byte is written.  [Reply size blocks broken]:
    the headers announce [size] bytes ([-1] when there is no
    Content-Length), successive reads return [blocks], and the transfer
    then ends, or breaks with an error. *)
Inductive response :=
| Refused (e : exn)
| Reply (total_size : Z) (blocks : list (list Byte.byte)) (broken : option exn).

(** Everything the script observes from outside.  The [nat] argument is
    the number of questions already asked of the world during the run, so
    the same URL may answer differently the second time. *)
Record world := World {
  (* os.path.join on two components, os.path.dirname *)
  w_join : string → string → string;
  w_dirname : string → string;
  (* time.time() *)
  w_time : nat → Q;
  (* the paths tempfile tries, in order, inside a directory *)
  w_mkstemp : nat → string → result (list string);
  (* urllib.request.urlretrieve(url, ..., context=...) *)
  w_urlretrieve : nat → string → option ssl_context → response;
  (* json.loads(urlopen(url).read()) on the pair manifest *)
  w_filelist : nat → string → result (list (list string));
  (* json.loads(urlopen(url).read()) on the cohort manifest *)
  w_detection : nat → string → result (gmap string (list string));
  (* input(prompt) *)
  w_input : nat → string → result string
}.

(** What the run leaves behind, in order: lines on standard output, the
    progress line of [reporthook] (by its numbers), calls of
    [urlretrieve] and [urlopen] with their arguments, the prompt of
    [input], and one [Job] for every entry into [download_file]. *)
Inductive event :=
| Stdout (line : string)
| Progress (percent progress_size speed : Z) (duration : Q)
| Urlretrieve (url filename : string) (hook : bool) (context : option ssl_context)
| Urlopen (url : string)
| Input (prompt : string)
| Job (url out_file : string).

(** The state the script threads: the file system, the function attribute
    [reporthook.start_time], the number of questions asked so far, the
    trace, and every file system the run went through (oldest first). *)
Record state := State {
  fs : filesystem;
  start_time : Q;
  asked : nat;
  trace : list event;
  seen : list filesystem
}.

Definition initial (f : filesystem) : state :=
  {| fs := f; start_time := 0%Q; asked := 0; trace := []; seen := [] |}.

(** ** The monad: state, with exceptions that keep the state *)

Definition M (A : Type) : Type := state → result A * state.

Definition ret {A} (a : A) : M A := λ σ, (Ok a, σ).

Definition raise {A} (e : exn) : M A := λ σ, (Raise e, σ).

Definition bind {A B} (m : M A) (k : A → M B) : M B := λ σ,
  match m σ with
  | (Ok a, σ') => k a σ'
  | (Raise e, σ') => (Raise e, σ')
  end.

(** [try: m  except Exception as e: h e] *)
Definition try_except {A} (m : M A) (h : exn → M A) : M A := λ σ,
  match m σ with
  | (Ok a, σ') => (Ok a, σ')
  | (Raise e, σ') => h e σ'
  end.

Declare Scope py_scope.
Delimit Scope py_scope with py.
Notation "x <- m ;; k" := (bind m (λ x, k))
  (at level 100, m at next level, right associativity) : py_scope.
Notation "m ;; k" := (bind m (λ _, k))
  (at level 100, right associativity) : py_scope.
Local Open Scope py_scope.

(** [for x in l: body x] *)
Fixpoint for_each {A} (l : list A) (body : A → M unit) : M unit :=
  match l with
  | [] => ret tt
  | x :: l' => body x ;; for_each l' body
  end.

Definition emit (e : event) : M unit := λ σ,
  (Ok tt, {| fs := fs σ; start_time := start_time σ; asked := asked σ;
             trace := trace σ ++ [e]; seen := seen σ |}).

Definition print (line : string) : M unit := emit (Stdout line).

Definition emit_job (url out_file : string) : M unit := emit (Job url out_file).

Definition get_fs : M filesystem := λ σ, (Ok (fs σ), σ).

Definition set_fs (f : filesystem) : M unit := λ σ,
  (Ok tt, {| fs := f; start_time := start_time σ; asked := asked σ;
             trace := trace σ; seen := seen σ ++ [f] |}).

Definition get_start_time : M Q := λ σ, (Ok (start_time σ), σ).

Definition set_start_time (t : Q) : M unit := λ σ,
  (Ok tt, {| fs := fs σ; start_time := t; asked := asked σ;
             trace := trace σ; seen := seen σ |}).

(** One question to the world. *)
Definition ask {A} (q : nat → A) : M A := λ σ,
  (Ok (q (asked σ)),
   {| fs := fs σ; start_time := start_time σ; asked := S (asked σ);
      trace := trace σ; seen := seen σ |}).

Definition of_result {A} (r : result A) : M A :=
  match r with Ok a => ret a | Raise e => raise e end.

(** ** The library routines the script calls

    These are not part of the script; they are modelled as far as the
    script depends on them.  The file system is a flat map, and a file
    system call fails only for a reason visible in that map. *)

Section Library.

Variable W : world.

(** [os.path.isfile] *)
Definition is_file (f : filesystem) (p : string) : bool :=
  match f !! p with Some (File _) => true | _ => false end.

Definition isfile (p : string) : M bool :=
  f <- get_fs ;;
  ret (is_file f p).

(** [os.makedirs(p, exist_ok=True)] on the flat map: it raises when the
    path itself is a regular file.  Its other failures (an ancestor that
    is a regular file, permissions) are not visible in the map; a
    statement that needs the call to succeed takes that as a
    hypothesis. *)
Definition makedirs (p : string) : M unit :=
  f <- get_fs ;;
  match f !! p with
  | Some (File _) => raise (Exn "FileExistsError" p)
  | Some Dir => ret tt
  | None => set_fs (<[p := Dir]> f)
  end.

(** [os.rename(src, dst)]: atomic; a directory is not overwritten. *)
Definition rename (src dst : string) : M unit :=
  f <- get_fs ;;
  match f !! src with
  | None => raise (Exn "FileNotFoundError" src)
  | Some n =>
      match f !! dst with
      | Some Dir => raise (Exn "IsADirectoryError" dst)
      | _ => set_fs (<[dst := n]> (delete src f))
      end
  end.

(** [os.unlink(p)] *)
Definition unlink (p : string) : M unit :=
  f <- get_fs ;;
  match f !! p with
  | Some (File _) => set_fs (delete p f)
  | Some Dir => raise (Exn "IsADirectoryError" p)
  | None => raise (Exn "FileNotFoundError" p)
  end.

(** [tempfile.NamedTemporaryFile(delete=False, dir=dir)]: the first
    candidate name that does not exist yet is created, empty
    (O_EXCL); the result is its name. *)
Definition NamedTemporaryFile (dir : string) : M string :=
  candidates <- ask (λ n, w_mkstemp W n dir) ;;
  names <- of_result candidates ;;
  f <- get_fs ;;
  match List.find (λ p, bool_decide (f !! p = None)) names with
  | Some p => set_fs (<[p := File []]> f) ;; ret p
  | None => raise (Exn "FileExistsError" "No usable temporary file name found")
  end.

(** [open(filename, 'wb')] *)
Definition open_wb (filename : string) : M unit :=
  f <- get_fs ;;
  match f !! filename with
  | Some Dir => raise (Exn "IsADirectoryError" filename)
  | _ => set_fs (<[filename := File []]> f)
  end.

(** [tfp.write(block)] on the file opened under [filename]. *)
Definition write (filename : string) (block : list Byte.byte) : M unit :=
  f <- get_fs ;;
  match f !! filename with
  | Some (File body) => set_fs (<[filename := File (body ++ block)]> f)
  | _ => ret tt
  end.

Definition file_size (filename : string) : M Z :=
  f <- get_fs ;;
  ret (match f !! filename with
       | Some (File body) => Z.of_nat (length body)
       | _ => 0%Z
       end).

(** [time.time()] *)
Definition time_time : M Q := ask (w_time W).

(** [a / b] on numbers: raises on a zero divisor.  Floats are
    idealised as rationals; [float] tells whether an operand is a float,
    which only changes the message. *)
Definition truediv (float : bool) (a b : Q) : M Q :=
  if Qeq_bool b 0 then
    raise (Exn "ZeroDivisionError"
             (if float then "float division by zero" else "division by zero"))
  else ret (a / b)%Q.

Definition hook := Z → Z → Z → M unit.

(** The block size [bs] of [urlretrieve]. *)
Definition bs : Z := 8192.

(** The read loop of [urlretrieve]: every block is written, then
    reported; an empty read ends the loop. *)
Fixpoint receive (filename : string) (reporthook : option hook) (size : Z)
    (blocknum : Z) (blocks : list (list Byte.byte)) (broken : option exn) : M unit :=
  match blocks with
  | [] => match broken with Some e => raise e | None => ret tt end
  | [] :: _ => ret tt
  | block :: rest =>
      write filename block ;;
      match reporthook with
      | Some h => h (blocknum + 1)%Z bs size
      | None => ret tt
      end ;;
      receive filename reporthook size (blocknum + 1)%Z rest broken
  end.

(** [urllib.request.urlretrieve(url, filename, reporthook=..., context=...)] *)
Definition urlretrieve (url filename : string) (reporthook : option hook)
    (context : option ssl_context) : M unit :=
  emit (Urlretrieve url filename (is_given reporthook) context) ;;
  answer <- ask (λ n, w_urlretrieve W n url context) ;;
  match answer with
  | Refused e => raise e
  | Reply size blocks broken =>
      open_wb filename ;;
      match reporthook with
      | Some h => h 0%Z bs size
      | None => ret tt
      end ;;
      receive filename reporthook size 0%Z blocks broken ;;
      read <- file_size filename ;;
      if ((0 <=? size) && (read <? size))%Z
      then raise (Exn "ContentTooShortError" "retrieval incomplete")
      else ret tt
  end.

(** [json.loads(urllib.request.urlopen(url).read())], by manifest kind. *)
Definition urlopen_filelist (url : string) : M (list (list string)) :=
  emit (Urlopen url) ;;
  answer <- ask (λ n, w_filelist W n url) ;;
  of_result answer.

Definition urlopen_detection (url : string) : M (gmap string (list string)) :=
  emit (Urlopen url) ;;
  answer <- ask (λ n, w_detection W n url) ;;
  of_result answer.

(** [d[key]] on a dict *)
Definition getitem {A} (d : gmap string A) (key : string) : M A :=
  match d !! key with
  | Some a => ret a
  | None => raise (Exn "KeyError" ("'" +:+ key +:+ "'"))
  end.

(** [input(prompt)] *)
Definition input (prompt : string) : M string :=
  emit (Input prompt) ;;
  answer <- ask (λ n, w_input W n prompt) ;;
  of_result answer.

(** [os.path.join] on several components. *)
Definition join (p : string) (ps : list string) : string :=
  foldl (w_join W) p ps.

End Library.


(** ** The script *)

Definition FILELIST_URL : string := "misc/filelist.json".
Definition DEEPFEAKES_DETECTION_URL : string := "misc/deepfake_detection_filenames.json".
Definition DEEPFAKES_MODEL_NAMES : list string :=
  ["decoder_A.h5"; "decoder_B.h5"; "encoder.h5"].

Definition DATASETS : gmap string string := list_to_map [
  ("original_youtube_videos", "misc/downloaded_youtube_videos.zip");
  ("original_youtube_videos_info", "misc/downloaded_youtube_videos_info.zip");
  ("original", "original_sequences/youtube");
  ("DeepFakeDetection_original", "original_sequences/actors");
  ("Deepfakes", "manipulated_sequences/Deepfakes");
  ("DeepFakeDetection", "manipulated_sequences/DeepFakeDetection");
  ("Face2Face", "manipulated_sequences/Face2Face");
  ("FaceShifter", "manipulated_sequences/FaceShifter");
  ("FaceSwap", "manipulated_sequences/FaceSwap");
  ("NeuralTextures", "manipulated_sequences/NeuralTextures")
].

Definition ALL_DATASETS : list string :=
  ["original"; "DeepFakeDetection_original"; "Deepfakes"; "DeepFakeDetection";
   "Face2Face"; "FaceShifter"; "FaceSwap"; "NeuralTextures"].
Definition COMPRESSION : list string := ["raw"; "c23"; "c40"].
Definition TYPE : list string := ["videos"; "masks"; "models"].
Definition SERVERS : list string := ["EU"; "EU2"; "CA"].

(** The namespace [parse_args] returns. *)
Record args := Args {
  output_path : string;
  dataset : string;
  compression : string;
  type : string;
  num_videos : option Z;
  server : string
}.

(** The [choices] that [parse_args] enforces; anything else ends the
    process before [main] does any work. *)
Definition parse_args_accepts (a : args) : bool :=
  bool_decide (dataset a ∈ ((map_to_list DATASETS).*1 ++ ["all"]))
  && bool_decide (compression a ∈ COMPRESSION)
  && bool_decide (type a ∈ TYPE)
  && bool_decide (server a ∈ SERVERS).

Definition get_server_url (server : string) : string :=
  let server_urls : gmap string string := list_to_map [
    ("EU", "http://canis.vc.in.tum.de:8100/");
    ("EU2", "http://kaldir.vc.in.tum.de/faceforensics/");
    ("CA", "http://falas.cmpt.sfu.ca:8100/")
  ] in
  default "http://canis.vc.in.tum.de:8100/" (server_urls !! server).

Section Script.

Variable W : world.

Definition reporthook (count block_size total_size : Z) : M unit :=
  if (count =? 0)%Z then
    now <- time_time W ;;
    set_start_time now
  else
    now <- time_time W ;;
    started <- get_start_time ;;
    let duration := (now - started)%Q in
    let progress_size := (count * block_size)%Z in
    speed <- truediv true (inject_Z progress_size) (1024 * duration)%Q ;;
    percent <- truediv false (inject_Z (count * block_size * 100)) (inject_Z total_size) ;;
    emit (Progress (int_of percent) progress_size (int_of speed) duration).

(** [Job url out_file] in the trace marks one download job: an entry into
    [download_file]. *)
Definition download_file (url out_file : string) (report_progress : bool) : M unit :=
  emit_job url out_file ;;
  let out_dir := w_dirname W out_file in
  exists_ <- isfile out_file ;;
  if negb exists_ then
    tmp_file <- NamedTemporaryFile W out_dir ;;
    try_except
      (let context := unverified_context in
       (if report_progress
        then urlretrieve W url tmp_file (Some reporthook) None
        else urlretrieve W url tmp_file None (Some context)) ;;
       rename tmp_file out_file)
      (λ e,
        unlink tmp_file ;;
        raise (Exn "RuntimeError" ("Download failed: " +:+ str_exn e)))
  else
    print ("Skipping existing file: " +:+ out_file).

(** [tqdm] draws its bar on stderr and yields the same items. *)
Definition tqdm {A} (l : list A) : list A := l.

Definition download_files (filenames : list string) (base_url output_path : string)
    (report_progress : bool) : M unit :=
  makedirs output_path ;;
  let filenames := if report_progress then tqdm filenames else filenames in
  for_each filenames (λ filename,
    try_except
      (download_file (base_url +:+ filename) (w_join W output_path filename) false)
      (λ e, print ("Error downloading " +:+ filename +:+ ": " +:+ str_exn e))).

(** The double quote inside [f'... "{dataset_path}"']. *)
Definition dquote : string := String "034"%char EmptyString.

(** Lines 153-163: the manifest is fetched and expanded into file stems. *)
Definition fetch_filelist (base_url dataset_path c_type : string) : M (list string) :=
  if str_in "DeepFakeDetection" dataset_path || str_in "actors" dataset_path then
    filepaths <- urlopen_detection W (base_url +:+ "/" +:+ DEEPFEAKES_DETECTION_URL) ;;
    if str_in "actors" dataset_path then getitem filepaths "actors"
    else getitem filepaths "DeepFakesDetection"
  else if str_in "original" dataset_path then
    file_pairs <- urlopen_filelist W (base_url +:+ "/" +:+ FILELIST_URL) ;;
    ret (concat file_pairs)
  else
    file_pairs <- urlopen_filelist W (base_url +:+ "/" +:+ FILELIST_URL) ;;
    let filelist := (λ pair, str_join "_" pair) <$> file_pairs in
    ret (if negb (String.eqb c_type "models")
         then filelist ++ ((λ pair, str_join "_" (reverse pair)) <$> file_pairs)
         else filelist).

(** Lines 165-168: [if num_videos is not None and num_videos > 0]. *)
Definition limit_videos (num_videos : option Z) (filelist : list string) : M (list string) :=
  match num_videos with
  | Some n =>
      if (0 <? n)%Z then
        print ("Downloading first " +:+ pretty n +:+ " videos") ;;
        ret (slice_to n filelist)
      else ret filelist
  | None => ret filelist
  end.

(** Lines 170-206: the URLs and the output path are built, and the files
    of the requested type are downloaded, or the combination is skipped. *)
Definition download_type (a : args) (base_url deepfakes_model_url dataset dataset_path : string)
    (filelist : list string) : M unit :=
  let c_type := type a in
  let c_compression := compression a in
  let dataset_videos_url :=
    base_url +:+ dataset_path +:+ "/" +:+ c_compression +:+ "/" +:+ c_type +:+ "/" in
  let dataset_mask_url := base_url +:+ dataset_path +:+ "/masks/videos/" in
  if String.eqb c_type "videos" then
    let output_path := join W (output_path a) [dataset_path; c_compression; c_type] in
    print ("Output path: " +:+ output_path) ;;
    let filelist := (λ filename, filename +:+ ".mp4") <$> filelist in
    download_files filelist dataset_videos_url output_path true
  else if String.eqb c_type "masks" then
    let output_path := join W (output_path a) [dataset_path; "videos"] in
    print ("Output path: " +:+ output_path) ;;
    if str_in "original" dataset then
      print "Skipping masks for original data."
    else if str_in "FaceShifter" dataset then
      print "Masks not available for FaceShifter."
    else
      let filelist := (λ filename, filename +:+ ".mp4") <$> filelist in
      download_files filelist dataset_mask_url output_path true
  else if String.eqb c_type "models" then
    if negb (String.eqb dataset "Deepfakes") then
      print "Models only available for Deepfakes."
    else
      let output_path := join W (output_path a) [dataset_path; c_type] in
      print ("Output path: " +:+ output_path) ;;
      for_each (tqdm filelist) (λ folder,
        let model_url := deepfakes_model_url +:+ folder +:+ "/" in
        let folder_output_path := w_join W output_path folder in
        download_files DEEPFAKES_MODEL_NAMES model_url folder_output_path false)
  else ret tt.

(** Lines 134-209: the body of [for dataset in c_datasets]; [continue]
    ends the body. *)
Definition main_dataset (a : args) (base_url deepfakes_model_url dataset : string) : M unit :=
  let c_type := type a in
  dataset_path <- getitem DATASETS dataset ;;
  if str_in "original_youtube_videos" dataset then
    let suffix := if negb (str_in "info" dataset_path) then EmptyString else "info" in
    print ("Downloading original youtube videos"
           +:+ (if truthy suffix then " info" else EmptyString) +:+ ".") ;;
    download_file
      (base_url +:+ "/" +:+ dataset_path)
      (w_join W (output_path a) ("downloaded_videos" +:+ suffix +:+ ".zip"))
      true
  else
    print ("Downloading " +:+ c_type +:+ " of dataset "
           +:+ dquote +:+ dataset_path +:+ dquote) ;;
    try_except
      (filelist <- fetch_filelist base_url dataset_path c_type ;;
       filelist <- limit_videos (num_videos a) filelist ;;
       download_type a base_url deepfakes_model_url dataset dataset_path filelist)
      (λ e, print ("Error processing dataset " +:+ dataset +:+ ": " +:+ str_exn e)).

Definition main (a : args) : M unit :=
  print "Confirm FaceForensics Terms of Use" ;;
  input W "Press Enter to continue, or CTRL-C to exit." ;;
  let server_url := get_server_url (server a) in
  let base_url := server_url +:+ "v3/" in
  let tos_url := server_url +:+ "webpage/FaceForensics_TOS.pdf" in
  let deepfakes_model_url := base_url +:+ "manipulated_sequences/Deepfakes/models/" in
  makedirs (output_path a) ;;
  let c_datasets :=
    if negb (String.eqb (dataset a) "all") then [dataset a] else ALL_DATASETS in
  for_each c_datasets (main_dataset a base_url deepfakes_model_url).

End Script.

(** ** Reading a trace *)

(** The download jobs of a trace, in order. *)
Definition jobs (t : list event) : list (string * string) :=
  omap (λ e, match e with Job url out_file => Some (url, out_file) | _ => None end) t.

(** The network requests of a trace: calls of [urlretrieve] and [urlopen]. *)
Definition requests (t : list event) : list event :=
  omap (λ e, match e with
             | Urlretrieve _ _ _ _ | Urlopen _ => Some e
             | _ => None
             end) t.

(** The lines printed on standard output. *)
Definition stdout (t : list event) : list string :=
  omap (λ e, match e with Stdout line => Some line | _ => None end) t.

(** ** Concrete worlds

    POSIX path handling and a few small networks, on which the script can
    be run by evaluation. *)

Module Posix.

(** [posixpath.join(a, b)] *)
Definition join (a b : string) : string :=
  if String.prefix "/" b then b
  else if String.eqb a EmptyString || String.eqb (substring (String.length a - 1) 1 a) "/"
       then a +:+ b
       else a +:+ "/" +:+ b.

Definition is_slash (c : ascii) : bool := Ascii.eqb c "/"%char.

Fixpoint drop_while {A} (p : A → bool) (l : list A) : list A :=
  match l with
  | x :: l' => if p x then drop_while p l' else l
  | [] => []
  end.

(** [posixpath.dirname(p)]: everything up to the last slash, without
    trailing slashes unless it consists of slashes only. *)
Definition dirname (p : string) : string :=
  let head := drop_while (λ c, negb (is_slash c)) (rev (list_ascii_of_string p)) in
  if forallb is_slash head then string_of_list_ascii (rev head)
  else string_of_list_ascii (rev (drop_while is_slash head)).

End Posix.

Definition bytes (s : string) : list Byte.byte := list_byte_of_string s.

(** A world on POSIX paths whose clock advances one second per question,
    with two temporary names per directory and a user who presses Enter. *)
Definition posix_world
    (net : nat → string → option ssl_context → response)
    (pairs : result (list (list string)))
    (cohorts : result (gmap string (list string))) : world :=
  {| w_join := Posix.join;
     w_dirname := Posix.dirname;
     w_time := λ n, inject_Z (Z.of_nat n);
     w_mkstemp := λ _ dir, Ok [Posix.join dir "tmpk3v9x2aq"; Posix.join dir "tmpz81hd0ce"];
     w_urlretrieve := net;
     w_filelist := λ _ _, pairs;
     w_detection := λ _ _, cohorts;
     w_input := λ _ _, Ok EmptyString |}.

(** The manifest of the specification's examples. *)
Definition ab_cd : list (list string) := [["a"; "b"]; ["c"; "d"]].

Definition no_manifest {A} : result A :=
  Raise (Exn "URLError" "<urlopen error [Errno 111] Connection refused>").

(** Every request is answered in full: five bytes, announced as five. *)
Definition net_hello : nat → string → option ssl_context → response :=
  λ _ _ _, Reply 5 [bytes "hello"] None.

(** No request gets through. *)
Definition net_down : nat → string → option ssl_context → response :=
  λ _ _ _, Refused (Exn "URLError" "<urlopen error [Errno 111] Connection refused>").

(** The transfer breaks after the first of two blocks. *)
Definition net_broken : nat → string → option ssl_context → response :=
  λ _ _ _, Reply 10 [bytes "hello"] (Some (Exn "ConnectionResetError" "[Errno 104] Connection reset by peer")).

(** The body arrives in full, under a header announcing zero bytes. *)
Definition net_zero_length : nat → string → option ssl_context → response :=
  λ _ _ _, Reply 0 [bytes "hello"] None.

Definition W_hello : world := posix_world net_hello (Ok ab_cd) no_manifest.
Definition W_down : world := posix_world net_down (Ok ab_cd) no_manifest.
Definition W_broken : world := posix_world net_broken (Ok ab_cd) no_manifest.
Definition W_zero_length : world := posix_world net_zero_length (Ok ab_cd) no_manifest.

(** The same network as [W_hello] under a clock too coarse to tell two
    consecutive readings apart. *)
Definition W_coarse_clock : world :=
  {| w_join := Posix.join;
     w_dirname := Posix.dirname;
     w_time := λ _, 0%Q;
     w_mkstemp := w_mkstemp W_hello;
     w_urlretrieve := net_hello;
     w_filelist := w_filelist W_hello;
     w_detection := w_detection W_hello;
     w_input := w_input W_hello |}.

(** A network whose [urlretrieve] has no [context] keyword, as in
    [urllib.request] of Python 3: a call that passes one is answered with
    the TypeError of the call, any other call in full. *)
Definition net_no_context : nat → string → option ssl_context → response :=
  λ n url context,
    match context with
    | Some _ =>
        Refused (Exn "TypeError" "urlretrieve() got an unexpected keyword argument 'context'")
    | None => net_hello n url context
    end.

Definition W_no_context : world := posix_world net_no_context (Ok ab_cd) no_manifest.

(** A world that also serves the cohort manifest. *)
Definition W_actors : world :=
  posix_world net_hello (Ok ab_cd)
    (Ok (list_to_map [("actors", ["01__kitchen_pan"; "02__walking_outside"]);
                      ("DeepFakesDetection", ["01_02__kitchen_pan__A1B2C3D4"])])).

Definition cli (dataset type : string) (num_videos : option Z) : args :=
  {| output_path := "out"; dataset := dataset; compression := "c23";
     type := type; num_videos := num_videos; server := "EU" |}.


(** What a response leaves in the file when the read loop runs to its
    end: the blocks up to the first empty read. *)
Fixpoint payload (blocks : list (list Byte.byte)) : list Byte.byte :=
  match blocks with
  | [] => []
  | [] :: _ => []
  | block :: rest => block ++ payload rest
  end.

(** Whether the read loop reaches the end of the data: every block is
    read and the transfer does not break, or an empty read ends it. *)
Fixpoint reaches_end (blocks : list (list Byte.byte)) (broken : option exn) : bool :=
  match blocks with
  | [] => match broken with None => true | Some _ => false end
  | [] :: _ => true
  | _ :: rest => reaches_end rest broken
  end.

(** The complete content a response delivers, if it delivers it: the
    transfer runs to its end and is not shorter than announced. *)
Definition delivered (answer : response) : option (list Byte.byte) :=
  match answer with
  | Refused _ => None
  | Reply size blocks broken =>
      if reaches_end blocks broken
         && negb ((0 <=? size) && (Z.of_nat (length (payload blocks)) <? size))%Z
      then Some (payload blocks)
      else None
  end.

(** The [context] keyword that [download_file] passes to [urlretrieve]. *)
Definition context_for (report_progress : bool) : option ssl_context :=
  if report_progress then None else Some unverified_context.

Definition is_progress (e : event) : Prop :=
  match e with Progress _ _ _ _ => True | _ => False end.

Definition not_job (e : event) : Prop :=
  match e with Job _ _ => False | _ => True end.

(** The line printed when a dataset has no files of the requested type. *)
Definition skip_message (dataset c_type : string) : option string :=
  if String.eqb c_type "masks" then
    if str_in "original" dataset then Some "Skipping masks for original data."
    else if str_in "FaceShifter" dataset then Some "Masks not available for FaceShifter."
    else None
  else if String.eqb c_type "models" then
    if negb (String.eqb dataset "Deepfakes") then Some "Models only available for Deepfakes."
    else None
  else None.

(** The datasets whose pair manifest is expanded into joined stems: the
    last branch of [fetch_filelist]. *)
Definition joins_pairs (dataset_path : string) : bool :=
  negb (str_in "DeepFakeDetection" dataset_path || str_in "actors" dataset_path)
  && negb (str_in "original" dataset_path).

(** The first line of a regular dataset, and the state it leaves. *)
Definition announced (a : args) (dataset_path : string) (σ : state) : state :=
  (print ("Downloading " +:+ type a +:+ " of dataset "
          +:+ dquote +:+ dataset_path +:+ dquote) σ).2.

(** The name [NamedTemporaryFile] settles on, on file system [f], when the
    world is asked for candidates as its [n]-th question. *)
Definition temp_name (W : world) (f : filesystem) (n : nat) (dir : string) : result string :=
  match w_mkstemp W n dir with
  | Raise e => Raise e
  | Ok names =>
      match List.find (λ p, bool_decide (f !! p = None)) names with
      | Some p => Ok p
      | None => Raise (Exn "FileExistsError" "No usable temporary file name found")
      end
  end.

(** ** Statements about the file fetcher *)

(** The destination after one call: on return it holds the complete
    content the server delivered; on an exception the file system is what
    it was before the call, so the destination is still absent and no
    temporary file is left.  And, unless the temporary name is the
    destination itself, every file system the call went through has the
    destination absent, the last one apart. *)
Definition atomic_download (W : world) (url out : string) (rp : bool) (σ : state) : Prop :=
  let r := (download_file W url out rp σ).1 in
  let σ' := (download_file W url out rp σ).2 in
  match r with
  | Ok _ =>
      ∃ body, delivered (w_urlretrieve W (S (asked σ)) url (context_for rp)) = Some body
              ∧ fs σ' = <[out := File body]> (fs σ)
  | Raise _ => fs σ' = fs σ
  end
  ∧ (temp_name W (fs σ) (asked σ) (w_dirname W out) ≠ Ok out →
     ∃ snaps, seen σ' = seen σ ++ snaps
              ∧ Forall (λ g, g !! out = None ∨ g = fs σ') snaps).

(** A call that finds the destination: no request, one line on standard
    output, the file system untouched. *)
Definition skips (W : world) (url out : string) (rp : bool) (σ : state) : Prop :=
  let r := (download_file W url out rp σ).1 in
  let σ' := (download_file W url out rp σ).2 in
  r = Ok tt
  ∧ fs σ' = fs σ
  ∧ requests (trace σ') = requests (trace σ)
  ∧ stdout (trace σ') = stdout (trace σ) ++ ["Skipping existing file: " +:+ out].

(** Two calls in a row: the second skips, and both together add exactly
    one request to the trace. *)
Definition one_request_in_two_calls (W : world) (url out : string) (rp : bool)
    (σ : state) : Prop :=
  let σ1 := (download_file W url out rp σ).2 in
  let σ2 := (download_file W url out rp σ1).2 in
  skips W url out rp σ1
  ∧ ∃ request, requests (trace σ2) = requests (trace σ) ++ [request].

(** ** Statements about the resolver *)

(** The combinations the resolver has nothing to download for. *)
Definition unsupported (dataset c_type : string) : Prop :=
  (c_type = "masks" ∧ dataset = "original")
  ∨ (c_type = "masks" ∧ dataset = "FaceShifter")
  ∨ (c_type = "models" ∧ dataset ≠ "Deepfakes").

(** One pass of the loop body that skips: it returns, leaves the file
    system alone and adds no download job; its last line is [msg] when
    the manifest was fetched, and the error line of the dataset when
    fetching it raised. *)
Definition skipped (W : world) (a : args) (base_url model_url dataset dataset_path msg : string)
    (σ : state) : Prop :=
  let run := main_dataset W a base_url model_url dataset σ in
  run.1 = Ok tt
  ∧ fs run.2 = fs σ
  ∧ jobs (trace run.2) = jobs (trace σ)
  ∧ last (stdout (trace run.2))
    = Some match (fetch_filelist W base_url dataset_path (type a) (announced a dataset_path σ)).1 with
           | Ok _ => msg
           | Raise e => "Error processing dataset " +:+ dataset +:+ ": " +:+ str_exn e
           end.

(** ** Statements about the rest of the script *)

(** The manifest requests of a trace: the URLs handed to [urlopen]. *)
Definition manifests (t : list event) : list string :=
  omap (λ e, match e with Urlopen url => Some url | _ => None end) t.

Definition not_urlopen (e : event) : Prop :=
  match e with Urlopen _ => False | _ => True end.

(** The manifest a dataset path is resolved from. *)
Definition manifest_url (base_url dataset_path : string) : string :=
  if str_in "DeepFakeDetection" dataset_path || str_in "actors" dataset_path
  then base_url +:+ "/" +:+ DEEPFEAKES_DETECTION_URL
  else base_url +:+ "/" +:+ FILELIST_URL.

(** The part of a file list the limit lets through. *)
Definition limited (num_videos : option Z) (filelist : list string) : list string :=
  match num_videos with
  | Some n => if (0 <? n)%Z then take (Z.to_nat n) filelist else filelist
  | None => filelist
  end.

(** A world whose standard input is at its end: [input] raises. *)
Definition W_eof : world :=
  {| w_join := Posix.join;
     w_dirname := Posix.dirname;
     w_time := w_time W_hello;
     w_mkstemp := w_mkstemp W_hello;
     w_urlretrieve := net_hello;
     w_filelist := w_filelist W_hello;
     w_detection := w_detection W_hello;
     w_input := λ _ _, Raise (Exn "EOFError" "EOF when reading a line") |}.

(** * Properties *)

(** ** What a computation may add to the trace *)

Definition emits_only (P : event → Prop) {A} (m : M A) : Prop :=
  ∀ σ, ∃ evs, trace (m σ).2 = trace σ ++ evs ∧ Forall P evs.

(** A computation that leaves the file system and its history alone. *)
Definition fs_stable {A} (m : M A) : Prop :=
  ∀ σ, fs (m σ).2 = fs σ ∧ seen (m σ).2 = seen σ.

Section Frames.

Context (P : event → Prop).

Lemma emits_only_silent {A} (m : M A) :
  (∀ σ, trace (m σ).2 = trace σ) → emits_only P m.
Proof.
  intros Hm σ. exists []. rewrite Hm, app_nil_r. auto.
Qed.

Lemma emits_only_ret {A} (a : A) : emits_only P (ret a).
Proof. by apply emits_only_silent. Qed.

Lemma emits_only_raise {A} e : emits_only P (@raise A e).
Proof. by apply emits_only_silent. Qed.

Lemma emits_only_get_fs : emits_only P get_fs.
Proof. by apply emits_only_silent. Qed.

Lemma emits_only_set_fs f : emits_only P (set_fs f).
Proof. by apply emits_only_silent. Qed.

Lemma emits_only_get_start_time : emits_only P get_start_time.
Proof. by apply emits_only_silent. Qed.

Lemma emits_only_set_start_time t : emits_only P (set_start_time t).
Proof. by apply emits_only_silent. Qed.

Lemma emits_only_ask {A} (q : nat → A) : emits_only P (ask q).
Proof. by apply emits_only_silent. Qed.

Lemma emits_only_of_result {A} (r : result A) : emits_only P (of_result r).
Proof. destruct r; by apply emits_only_silent. Qed.

Lemma emits_only_emit e : P e → emits_only P (emit e).
Proof. intros He σ. exists [e]. simpl. auto. Qed.

Lemma emits_only_bind {A B} (m : M A) (k : A → M B) :
  emits_only P m → (∀ a, emits_only P (k a)) → emits_only P (bind m k).
Proof.
  intros Hm Hk σ. unfold bind.
  destruct (Hm σ) as (evs & Ht & Hevs).
  destruct (m σ) as [[a|e] σ1]; simpl in *.
  - destruct (Hk a σ1) as (evs' & Ht' & Hevs').
    exists (evs ++ evs'). rewrite Ht', Ht, app_assoc.
    split; [done | by apply Forall_app].
  - by exists evs.
Qed.

Lemma emits_only_try {A} (m : M A) (h : exn → M A) :
  emits_only P m → (∀ e, emits_only P (h e)) → emits_only P (try_except m h).
Proof.
  intros Hm Hh σ. unfold try_except.
  destruct (Hm σ) as (evs & Ht & Hevs).
  destruct (m σ) as [[a|e] σ1]; simpl in *.
  - by exists evs.
  - destruct (Hh e σ1) as (evs' & Ht' & Hevs').
    exists (evs ++ evs'). rewrite Ht', Ht, app_assoc.
    split; [done | by apply Forall_app].
Qed.

Lemma emits_only_for_each {A} (l : list A) (body : A → M unit) :
  (∀ x, emits_only P (body x)) → emits_only P (for_each l body).
Proof.
  intros Hbody. induction l as [|x l IH]; simpl.
  - apply emits_only_ret.
  - apply emits_only_bind; auto.
Qed.

End Frames.

Lemma emits_only_mono (P Q : event → Prop) {A} (m : M A) :
  (∀ e, P e → Q e) → emits_only P m → emits_only Q m.
Proof.
  intros HPQ Hm σ. destruct (Hm σ) as (evs & Ht & Hevs).
  exists evs. split; [done|]. eapply Forall_impl; eauto.
Qed.

Lemma fs_stable_bind {A B} (m : M A) (k : A → M B) :
  fs_stable m → (∀ a, fs_stable (k a)) → fs_stable (bind m k).
Proof.
  intros Hm Hk σ. unfold bind.
  destruct (Hm σ) as [Hf Hs].
  destruct (m σ) as [[a|e] σ1]; simpl in *; [|done].
  destruct (Hk a σ1) as [Hf' Hs']. by rewrite Hf', Hs'.
Qed.

Lemma fs_stable_of_result {A} (r : result A) : fs_stable (of_result r).
Proof. by destruct r. Qed.

Ltac emits :=
  repeat first
    [ apply emits_only_bind; [|intros ?]
    | apply emits_only_try; [|intros ?]
    | apply emits_only_for_each; intros ?
    | apply emits_only_ret
    | apply emits_only_raise
    | apply emits_only_get_fs
    | apply emits_only_set_fs
    | apply emits_only_get_start_time
    | apply emits_only_set_start_time
    | apply emits_only_ask
    | apply emits_only_of_result
    | apply emits_only_emit; exact I
    | match goal with
      | |- emits_only _ (match ?x with _ => _ end) => destruct x
      end ].

Ltac stable :=
  repeat first
    [ apply fs_stable_bind; [|intros ?]
    | apply fs_stable_of_result
    | match goal with
      | |- fs_stable (match ?x with _ => _ end) => destruct x
      end
    | done ].

Section Hook.

Context (W : world).

Lemma reporthook_stable count block_size total_size :
  fs_stable (reporthook W count block_size total_size).
Proof.
  unfold reporthook, time_time, truediv. stable.
Qed.

Lemma reporthook_emits count block_size total_size :
  emits_only is_progress (reporthook W count block_size total_size).
Proof.
  unfold reporthook, time_time, truediv. emits.
Qed.

End Hook.

Lemma bind_ok {A B} (m : M A) (k : A → M B) σ a σ1 :
  m σ = (Ok a, σ1) → bind m k σ = k a σ1.
Proof. intros H. unfold bind. by rewrite H. Qed.

Lemma bind_raise {A B} (m : M A) (k : A → M B) σ e σ1 :
  m σ = (Raise e, σ1) → bind m k σ = (Raise e, σ1).
Proof. intros H. unfold bind. by rewrite H. Qed.

Lemma try_ok {A} (m : M A) (h : exn → M A) σ a σ1 :
  m σ = (Ok a, σ1) → try_except m h σ = (Ok a, σ1).
Proof. intros H. unfold try_except. by rewrite H. Qed.

Lemma try_raise {A} (m : M A) (h : exn → M A) σ e σ1 :
  m σ = (Raise e, σ1) → try_except m h σ = h e σ1.
Proof. intros H. unfold try_except. by rewrite H. Qed.

Lemma unlink_spec (tmp : string) (body : list Byte.byte) (f : filesystem) σ :
  fs σ = <[tmp := File body]> f → f !! tmp = None →
  ∃ σ1, unlink tmp σ = (Ok tt, σ1)
        ∧ fs σ1 = f ∧ seen σ1 = seen σ ++ [f] ∧ trace σ1 = trace σ.
Proof.
  intros Hfs Hfresh. eexists. unfold unlink, bind, get_fs, set_fs. simpl.
  rewrite Hfs, lookup_insert_eq. simpl. rewrite delete_insert_id by done. auto.
Qed.

Lemma rename_spec (tmp out : string) (body : list Byte.byte) (f : filesystem) σ :
  fs σ = <[tmp := File body]> f → f !! tmp = None → is_file f out = false →
  (∃ σ1, rename tmp out σ = (Ok tt, σ1)
         ∧ fs σ1 = <[out := File body]> f
         ∧ seen σ1 = seen σ ++ [<[out := File body]> f]
         ∧ trace σ1 = trace σ)
  ∨ (∃ e, rename tmp out σ = (Raise e, σ)).
Proof.
  intros Hfs Hfresh Hfile. unfold rename, bind, get_fs, set_fs. simpl.
  rewrite Hfs, lookup_insert_eq. simpl.
  destruct (decide (tmp = out)) as [->|Hne].
  - rewrite lookup_insert_eq. left. eexists. simpl.
    rewrite delete_insert_id by done. auto.
  - rewrite lookup_insert_ne by done. unfold is_file in Hfile.
    destruct (f !! out) as [[|]|] eqn:Hout; try discriminate.
    + right. eauto.
    + left. eexists. rewrite delete_insert_id by done. auto.
Qed.

(** ** The file fetcher, step by step *)

Section Retrieve.

Context (W : world).

Lemma write_spec (tmp : string) (block body : list Byte.byte) (f : filesystem) σ :
  fs σ = <[tmp := File body]> f →
  ∃ σ1, write tmp block σ = (Ok tt, σ1)
        ∧ fs σ1 = <[tmp := File (body ++ block)]> f
        ∧ seen σ1 = seen σ ++ [<[tmp := File (body ++ block)]> f].
Proof.
  intros Hfs. eexists. unfold write, bind, get_fs, set_fs. simpl.
  rewrite Hfs, lookup_insert_eq. simpl. rewrite insert_insert_eq. auto.
Qed.

Lemma receive_spec (tmp : string) (h : option hook) (size : Z) (f : filesystem) :
  (∀ g, h = Some g → ∀ c b t, fs_stable (g c b t)) →
  ∀ blocks broken n σ body r σ',
    fs σ = <[tmp := File body]> f →
    receive tmp h size n blocks broken σ = (r, σ') →
    ∃ body' snaps,
      fs σ' = <[tmp := File body']> f
      ∧ seen σ' = seen σ ++ snaps
      ∧ Forall (λ g, ∃ b, g = <[tmp := File b]> f) snaps
      ∧ (r = Ok tt → body' = body ++ payload blocks ∧ reaches_end blocks broken = true).
Proof.
  intros Hh blocks broken.
  induction blocks as [|block rest IH]; intros n σ body r σ' Hfs Hrun.
  - exists body, []. simpl in *. rewrite !app_nil_r.
    destruct broken; inversion Hrun; subst; repeat split; auto; discriminate.
  - destruct block as [|b0 block].
    { exists body, []. simpl in *. inversion Hrun; subst. rewrite !app_nil_r. auto. }
    set (blk := b0 :: block) in *.
    change (receive tmp h size n (blk :: rest) broken σ)
      with (bind (write tmp blk)
              (λ _, bind (match h with Some g => g (n + 1)%Z bs size | None => ret tt end)
                      (λ _, receive tmp h size (n + 1)%Z rest broken)) σ) in Hrun.
    destruct (write_spec tmp blk body f σ Hfs) as (σ1 & Hw & Hfs1 & Hseen1).
    rewrite (bind_ok _ _ _ _ _ Hw) in Hrun.
    set (call := match h with Some g => g (n + 1)%Z bs size | None => ret tt end) in *.
    assert (Hcall : fs_stable call).
    { subst call. destruct h as [g|]; [by apply Hh | done]. }
    destruct (Hcall σ1) as [Hf2 Hs2].
    destruct (call σ1) as [[[]|e] σ2] eqn:Hc; simpl in Hf2, Hs2.
    + rewrite (bind_ok _ _ _ _ _ Hc) in Hrun.
      destruct (IH (n + 1)%Z σ2 (body ++ blk) r σ') as (body' & snaps & H1 & H2 & H3 & H4);
        [by rewrite Hf2 | done |].
      exists body', (<[tmp := File (body ++ blk)]> f :: snaps).
      rewrite H1, H2, Hs2, Hseen1, <- app_assoc. simpl.
      repeat split; auto.
      * constructor; eauto.
      * destruct (H4 H) as [-> _]. by rewrite <- app_assoc.
      * by destruct (H4 H).
    + rewrite (bind_raise _ _ _ _ _ Hc) in Hrun. inversion Hrun; subst.
      exists (body ++ blk), [<[tmp := File (body ++ blk)]> f].
      rewrite Hf2, Hs2. repeat split; eauto; discriminate.
Qed.

Lemma urlretrieve_spec (url tmp : string) (h : option hook) (ctx : option ssl_context)
    (f : filesystem) σ body0 r σ' :
  (∀ g, h = Some g → ∀ c b t, fs_stable (g c b t)) →
  fs σ = <[tmp := File body0]> f →
  urlretrieve W url tmp h ctx σ = (r, σ') →
  ∃ body snaps,
    fs σ' = <[tmp := File body]> f
    ∧ seen σ' = seen σ ++ snaps
    ∧ Forall (λ g, ∃ b, g = <[tmp := File b]> f) snaps
    ∧ (r = Ok tt → delivered (w_urlretrieve W (asked σ) url ctx) = Some body).
Proof.
  intros Hh Hfs Hrun. unfold urlretrieve in Hrun.
  unfold bind at 1 in Hrun. simpl in Hrun. unfold bind at 1 in Hrun. simpl in Hrun.
  destruct (w_urlretrieve W (asked σ) url ctx) as [e|size blocks broken]; simpl.
  { inversion Hrun; subst. exists body0, []. rewrite app_nil_r. repeat split; auto. discriminate. }
  set (σ0 := {| fs := fs σ; start_time := start_time σ; asked := S (asked σ);
                trace := trace σ ++ [Urlretrieve url tmp (is_given h) ctx];
                seen := seen σ |}) in Hrun.
  assert (Hopen : ∃ σ1, open_wb tmp σ0 = (Ok tt, σ1)
                        ∧ fs σ1 = <[tmp := File []]> f
                        ∧ seen σ1 = seen σ ++ [<[tmp := File []]> f]).
  { eexists. unfold open_wb, bind, get_fs, set_fs. simpl.
    rewrite Hfs, lookup_insert_eq. simpl. rewrite insert_insert_eq. auto. }
  destruct Hopen as (σ1 & Hopen & Hfs1 & Hseen1).
  rewrite (bind_ok _ _ _ _ _ Hopen) in Hrun.
  set (call := match h with Some g => g 0%Z bs size | None => ret tt end) in *.
  assert (Hcall : fs_stable call).
  { subst call. destruct h as [g|]; [by apply Hh | done]. }
  destruct (Hcall σ1) as [Hf2 Hs2].
  destruct (call σ1) as [[[]|e] σ2] eqn:Hc; simpl in Hf2, Hs2.
  2:{ rewrite (bind_raise _ _ _ _ _ Hc) in Hrun. inversion Hrun; subst.
      exists [], [<[tmp := File []]> f]. rewrite Hf2, Hs2.
      repeat split; eauto; discriminate. }
  rewrite (bind_ok _ _ _ _ _ Hc) in Hrun.
  destruct (receive tmp h size 0 blocks broken σ2) as [r3 σ3] eqn:Hrecv.
  destruct (receive_spec tmp h size f Hh blocks broken 0%Z σ2 [] r3 σ3)
    as (body & snaps & H1 & H2 & H3 & H4); [by rewrite Hf2 | done |].
  exists body, (<[tmp := File []]> f :: snaps).
  destruct r3 as [[]|e].
  2:{ rewrite (bind_raise _ _ _ _ _ Hrecv) in Hrun. inversion Hrun; subst.
      rewrite H1, H2, Hs2, Hseen1, <- app_assoc.
      repeat split; eauto; discriminate. }
  rewrite (bind_ok _ _ _ _ _ Hrecv) in Hrun.
  destruct (H4 eq_refl) as [Hbody Hend]. simpl in Hbody.
  unfold bind, file_size, get_fs in Hrun. simpl in Hrun.
  rewrite H1, lookup_insert_eq in Hrun. rewrite Hend. simpl. subst body.
  destruct ((0 <=? size)%Z && (Z.of_nat (length (payload blocks)) <? size)%Z);
    inversion Hrun; subst; rewrite H1, H2, Hs2, Hseen1, <- app_assoc;
    repeat split; eauto; discriminate.
Qed.


Lemma receive_emits (tmp : string) (h : option hook) (size : Z) :
  (∀ g, h = Some g → ∀ c b t, emits_only is_progress (g c b t)) →
  ∀ blocks broken n, emits_only is_progress (receive tmp h size n blocks broken).
Proof.
  intros Hh blocks broken.
  induction blocks as [|block rest IH]; intros n; simpl.
  - emits.
  - destruct block; [emits|]. unfold write. emits; auto.
Qed.

Lemma urlretrieve_trace (url tmp : string) (h : option hook) (ctx : option ssl_context) σ :
  (∀ g, h = Some g → ∀ c b t, emits_only is_progress (g c b t)) →
  ∃ evs,
    trace (urlretrieve W url tmp h ctx σ).2
    = trace σ ++ Urlretrieve url tmp (is_given h) ctx :: evs
    ∧ Forall is_progress evs.
Proof.
  intros Hh. unfold urlretrieve. unfold bind at 1. simpl.
  match goal with
  | |- context [bind ?m ?k ?s] =>
      assert (Hrest : emits_only is_progress (bind m k));
      [|destruct (Hrest s) as (evs & Ht & Hevs)]
  end.
  { unfold open_wb, file_size. emits; auto. by apply receive_emits. }
  exists evs. simpl in Ht. by rewrite Ht, <- app_assoc.
Qed.

Lemma download_file_spec (url out : string) (rp : bool) σ r σ' :
  download_file W url out rp σ = (r, σ') →
  if is_file (fs σ) out then
    r = Ok tt ∧ fs σ' = fs σ ∧ seen σ' = seen σ ∧ asked σ' = asked σ
    ∧ trace σ' = trace σ ++ [Job url out; Stdout ("Skipping existing file: " +:+ out)]
  else
    match temp_name W (fs σ) (asked σ) (w_dirname W out) with
    | Raise e =>
        r = Raise e ∧ fs σ' = fs σ ∧ seen σ' = seen σ
        ∧ trace σ' = trace σ ++ [Job url out]
    | Ok tmp =>
        ∃ evs before,
          fs σ !! tmp = None
          ∧ trace σ' = trace σ ++ Job url out :: Urlretrieve url tmp rp (context_for rp) :: evs
          ∧ Forall is_progress evs
          ∧ Forall (λ g, ∃ b, g = <[tmp := File b]> (fs σ)) before
          ∧ seen σ' = seen σ ++ before ++ [fs σ']
          ∧ ((∃ body, r = Ok tt
                      ∧ delivered (w_urlretrieve W (S (asked σ)) url (context_for rp)) = Some body
                      ∧ fs σ' = <[out := File body]> (fs σ))
             ∨ (∃ e, r = Raise (Exn "RuntimeError" ("Download failed: " +:+ str_exn e))
                     ∧ fs σ' = fs σ))
    end.
Proof.
  intros Hrun. unfold download_file in Hrun.
  unfold bind at 1 in Hrun. simpl in Hrun.
  unfold bind at 1 in Hrun. unfold isfile at 1 in Hrun. unfold bind at 1, get_fs in Hrun.
  simpl in Hrun.
  destruct (is_file (fs σ) out) eqn:Hfile; simpl in Hrun.
  { inversion Hrun; subst; simpl. rewrite <- app_assoc. auto. }
  unfold NamedTemporaryFile in Hrun. unfold temp_name.
  unfold bind at 1 in Hrun. unfold bind at 1 in Hrun. simpl in Hrun.
  unfold bind at 1 in Hrun.
  destruct (w_mkstemp W (asked σ) (w_dirname W out)) as [names|e]; simpl in Hrun.
  2:{ inversion Hrun; subst; simpl. auto. }
  unfold bind at 1 in Hrun. simpl in Hrun.
  destruct (List.find (λ p, bool_decide (fs σ !! p = None)) names) as [tmp|] eqn:Hfind;
    simpl in Hrun.
  2:{ inversion Hrun; subst; simpl. auto. }
  apply find_some in Hfind as [_ Hfresh]. apply bool_decide_eq_true in Hfresh.
  set (σt := {| fs := <[tmp:=File []]> (fs σ); start_time := start_time σ;
                asked := S (asked σ); trace := trace σ ++ [Job url out];
                seen := seen σ ++ [<[tmp:=File []]> (fs σ)] |}) in Hrun.
  pose (h := (if rp then Some (reporthook W) else None) : option hook).
  assert (Hcall : (if rp
                   then urlretrieve W url tmp (Some (reporthook W)) None
                   else urlretrieve W url tmp None (Some unverified_context))
                  = urlretrieve W url tmp h (context_for rp)) by (by destruct rp).
  rewrite Hcall in Hrun. clear Hcall.
  assert (Hstable : ∀ g, h = Some g → ∀ c b t, fs_stable (g c b t)).
  { intros g Hg c b t. destruct rp; inversion Hg. apply reporthook_stable. }
  assert (Hemits : ∀ g, h = Some g → ∀ c b t, emits_only is_progress (g c b t)).
  { intros g Hg c b t. destruct rp; inversion Hg. apply reporthook_emits. }
  assert (Hhook : @is_given hook h = rp) by (by destruct rp).
  destruct (urlretrieve_trace url tmp h (context_for rp) σt Hemits) as (evs & Ht & Hevs).
  rewrite Hhook in Ht.
  destruct (urlretrieve W url tmp h (context_for rp) σt) as [r2 σ2] eqn:Hu.
  destruct (urlretrieve_spec url tmp h (context_for rp) (fs σ) σt [] r2 σ2 Hstable eq_refl Hu)
    as (body & snaps & Hfs2 & Hseen2 & Hsnaps & Hok).
  simpl in Ht, Hseen2, Hok.
  destruct (unlink_spec tmp body (fs σ) σ2 Hfs2 Hfresh) as (σu & Hunlink & Hfsu & Hseenu & Htu).
  exists evs, (<[tmp:=File []]> (fs σ) :: snaps).
  assert (Hbefore : Forall (λ g, ∃ b, g = <[tmp:=File b]> (fs σ))
                      (<[tmp:=File []]> (fs σ) :: snaps)) by (constructor; eauto).
  assert (Hfailed : ∀ e, (bind (unlink tmp)
              (λ _, @raise unit (Exn "RuntimeError" ("Download failed: " +:+ str_exn e)))) σ2
            = (Raise (Exn "RuntimeError" ("Download failed: " +:+ str_exn e)), σu)).
  { intros e. by rewrite (bind_ok _ _ _ _ _ Hunlink). }
  destruct r2 as [[]|e].
  - destruct (rename_spec tmp out body (fs σ) σ2 Hfs2 Hfresh Hfile)
      as [(σr & Hren & Hfsr & Hseenr & Htr)|(e & Hren)].
    + erewrite try_ok in Hrun by (by erewrite bind_ok by exact Hu).
      inversion Hrun; subst r σ'.
      rewrite Htr, Ht, Hseenr, Hseen2, Hfsr, <- !app_assoc. simpl.
      repeat split; auto. left. exists body. auto.
    + erewrite try_raise in Hrun by (by erewrite bind_ok by exact Hu).
      rewrite Hfailed in Hrun. inversion Hrun; subst r σ'.
      rewrite Htu, Ht, Hseenu, Hseen2, Hfsu, <- !app_assoc. simpl.
      repeat split; auto. right. eauto.
  - erewrite try_raise in Hrun by (by erewrite bind_raise by exact Hu).
    rewrite Hfailed in Hrun. inversion Hrun; subst r σ'.
    rewrite Htu, Ht, Hseenu, Hseen2, Hfsu, <- !app_assoc. simpl.
    repeat split; auto. right. eauto.
Qed.
End Retrieve.

(** ** Reading traces *)

Lemma requests_app t1 t2 : requests (t1 ++ t2) = requests t1 ++ requests t2.
Proof. apply omap_app. Qed.

Lemma stdout_app t1 t2 : stdout (t1 ++ t2) = stdout t1 ++ stdout t2.
Proof. apply omap_app. Qed.

Lemma jobs_app t1 t2 : jobs (t1 ++ t2) = jobs t1 ++ jobs t2.
Proof. apply omap_app. Qed.

Lemma requests_progress evs : Forall is_progress evs → requests evs = [].
Proof.
  induction 1 as [|e evs He _ IH]; [done|].
  destruct e; done.
Qed.

Lemma run_eq {A} (m : M A) σ : m σ = ((m σ).1, (m σ).2).
Proof. by destruct (m σ). Qed.

(** ** The file fetcher *)

(** C1.  When nothing exists at [out_file] before the call, then after
    [download_file] returns the path holds the complete content the
    server delivered, and after it raises the file system is the one
    before the call: nothing at [out_file], and the temporary file
    removed.  Unless the temporary name chosen is [out_file] itself,
    [out_file] is absent in every file system the call goes through
    before the final one. *)
Theorem download_file_atomic (W : world) (url out : string) (rp : bool) (σ : state) :
  fs σ !! out = None → atomic_download W url out rp σ.
Proof.
  intros Habsent. unfold atomic_download.
  pose proof (download_file_spec W url out rp σ _ _ (run_eq _ σ)) as Hspec.
  assert (Hfile : is_file (fs σ) out = false) by (unfold is_file; by rewrite Habsent).
  rewrite Hfile in Hspec.
  destruct (temp_name W (fs σ) (asked σ) (w_dirname W out)) as [tmp|e0].
  - destruct Hspec as (evs & before & Hfresh & _ & _ & Hbefore & Hseen & Hend).
    split.
    + destruct Hend as [(body & -> & Hbody & Hfs)|(e & -> & Hfs)]; eauto.
    + intros Hne. exists (before ++ [fs (download_file W url out rp σ).2]).
      split; [done|]. apply Forall_app. split; [|auto].
      eapply Forall_impl; [exact Hbefore|]. intros g [b ->]. left.
      rewrite lookup_insert_ne; [done | congruence].
  - destruct Hspec as (-> & Hfs & Hseen & _). split; [done|].
    intros _. exists []. by rewrite app_nil_r.
Qed.

Lemma download_file_atomic_witness :
  fs (initial ∅) !! "out/a_b.mp4" = None
  ∧ atomic_download W_broken "http://host/v3/a_b.mp4" "out/a_b.mp4" false (initial ∅).
Proof.
  split; [reflexivity | apply download_file_atomic; reflexivity].
Defined.

(** A transfer that breaks after its first block: the call raises, and
    neither the destination nor the temporary file is there afterwards. *)
Example broken_transfer_leaves_nothing :
  let run := download_file W_broken "http://host/v3/a_b.mp4" "out/a_b.mp4" false (initial ∅) in
  run.1 = Raise (Exn "RuntimeError" "Download failed: [Errno 104] Connection reset by peer")
  ∧ map_to_list (fs run.2) = []
  ∧ map_to_list <$> seen run.2
    = [[("out/tmpk3v9x2aq", File [])];
       [("out/tmpk3v9x2aq", File [])];
       [("out/tmpk3v9x2aq", File (bytes "hello"))];
       []].
Proof. vm_compute. auto. Qed.

Lemma skips_existing (W : world) (url out : string) (rp : bool) (σ : state) :
  is_file (fs σ) out = true → skips W url out rp σ.
Proof.
  intros Hfile. unfold skips.
  pose proof (download_file_spec W url out rp σ _ _ (run_eq _ σ)) as Hspec.
  rewrite Hfile in Hspec. destruct Hspec as (-> & -> & _ & _ & ->).
  rewrite requests_app, stdout_app. simpl. by rewrite app_nil_r.
Qed.

(** C3.  When a file exists at the destination, [download_file] issues no
    request, prints the skip line and leaves the file system as it is.
    So when the destination is not there at first and a first call
    returns, a second call on the same arguments skips, and the two calls
    together issue exactly one request. *)
Theorem download_file_once (W : world) (url out : string) (rp : bool) (σ : state) :
  (is_file (fs σ) out = true → skips W url out rp σ)
  ∧ (is_file (fs σ) out = false →
     (download_file W url out rp σ).1 = Ok tt →
     one_request_in_two_calls W url out rp σ).
Proof.
  split; [apply skips_existing|].
  intros Hfile Hok. unfold one_request_in_two_calls.
  pose proof (download_file_spec W url out rp σ _ _ (run_eq _ σ)) as Hspec.
  rewrite Hfile, Hok in Hspec.
  destruct (temp_name W (fs σ) (asked σ) (w_dirname W out)) as [tmp|e0];
    [|by destruct Hspec].
  destruct Hspec as (evs & before & _ & Ht & Hevs & _ & _ & Hend).
  destruct Hend as [(body & _ & _ & Hfs)|(e & ? & _)]; [|done].
  assert (Hskip : skips W url out rp (download_file W url out rp σ).2).
  { apply skips_existing. unfold is_file. by rewrite Hfs, lookup_insert_eq. }
  split; [exact Hskip|].
  destruct Hskip as (_ & _ & -> & _).
  exists (Urlretrieve url tmp rp (context_for rp)).
  rewrite Ht, requests_app. simpl. by rewrite (requests_progress evs Hevs).
Qed.

Lemma download_file_once_witness :
  let W := W_hello in
  let url := "http://host/v3/misc/downloaded_youtube_videos.zip" in
  let out := "out/downloaded_videos.zip" in
  let σ := initial ∅ in
  let σ1 := (download_file W url out true σ).2 in
  (is_file (fs σ1) out = true ∧ skips W url out true σ1)
  ∧ (is_file (fs σ) out = false
     ∧ (download_file W url out true σ).1 = Ok tt
     ∧ one_request_in_two_calls W url out true σ).
Proof.
  intros W url out σ σ1. split.
  - split; [reflexivity|].
    apply (proj1 (download_file_once W url out true σ1)). reflexivity.
  - split; [reflexivity|]. split; [reflexivity|].
    apply (proj2 (download_file_once W url out true σ)); reflexivity.
Defined.

(** Two calls on a world that answers every request: one request, one
    skip line. *)
Example two_calls_one_request :
  let W := W_hello in
  let url := "http://host/v3/misc/downloaded_youtube_videos.zip" in
  let out := "out/downloaded_videos.zip" in
  let σ1 := (download_file W url out true (initial ∅)).2 in
  let σ2 := (download_file W url out true σ1).2 in
  requests (trace σ2) = [Urlretrieve url "out/tmpk3v9x2aq" true None]
  ∧ stdout (trace σ2) = ["Skipping existing file: out/downloaded_videos.zip"]
  ∧ fs σ2 !! out = Some (File (bytes "hello")).
Proof. vm_compute. auto. Qed.

(** C4, as the code has it.  Once the temporary file is there, the one
    request of a call goes out with the unverified context when progress
    reporting is off, and with no context at all when it is on. *)
Theorem download_file_context (W : world) (url out tmp : string) (σ : state) :
  is_file (fs σ) out = false →
  temp_name W (fs σ) (asked σ) (w_dirname W out) = Ok tmp →
  requests (trace (download_file W url out true σ).2)
  = requests (trace σ) ++ [Urlretrieve url tmp true None]
  ∧ requests (trace (download_file W url out false σ).2)
    = requests (trace σ) ++ [Urlretrieve url tmp false (Some unverified_context)].
Proof.
  intros Hfile Htmp.
  assert (Hboth : ∀ rp, requests (trace (download_file W url out rp σ).2)
                        = requests (trace σ) ++ [Urlretrieve url tmp rp (context_for rp)]).
  { intros rp.
    pose proof (download_file_spec W url out rp σ _ _ (run_eq _ σ)) as Hspec.
    rewrite Hfile, Htmp in Hspec.
    destruct Hspec as (evs & before & _ & Ht & Hevs & _).
    rewrite Ht, requests_app. simpl. by rewrite (requests_progress evs Hevs). }
  split; apply Hboth.
Qed.

Lemma download_file_context_witness :
  let W := W_hello in
  let url := "http://host/v3/misc/downloaded_youtube_videos.zip" in
  let out := "out/downloaded_videos.zip" in
  let tmp := "out/tmpk3v9x2aq" in
  let σ := initial ∅ in
  is_file (fs σ) out = false
  ∧ temp_name W (fs σ) (asked σ) (w_dirname W out) = Ok tmp
  ∧ requests (trace (download_file W url out true σ).2)
    = requests (trace σ) ++ [Urlretrieve url tmp true None]
  ∧ requests (trace (download_file W url out false σ).2)
    = requests (trace σ) ++ [Urlretrieve url tmp false (Some unverified_context)].
Proof.
  intros W url out tmp σ.
  split; [reflexivity|]. split; [reflexivity|].
  apply (download_file_context W url out tmp σ); reflexivity.
Defined.

Lemma jobs_not_job evs : Forall not_job evs → jobs evs = [].
Proof.
  induction 1 as [|e evs He _ IH]; [done|].
  destruct e; done.
Qed.

Lemma emits_only_jobs {A} (m : M A) σ :
  emits_only not_job m → jobs (trace (m σ).2) = jobs (trace σ).
Proof.
  intros Hm. destruct (Hm σ) as (evs & -> & Hevs).
  by rewrite jobs_app, (jobs_not_job evs Hevs), app_nil_r.
Qed.

(** ** The resolver *)

Section Resolver.

Context (W : world).

Lemma fetch_filelist_emits base_url dataset_path c_type :
  emits_only not_job (fetch_filelist W base_url dataset_path c_type).
Proof.
  unfold fetch_filelist, urlopen_detection, urlopen_filelist, getitem. emits.
Qed.

Lemma fetch_filelist_stable base_url dataset_path c_type :
  fs_stable (fetch_filelist W base_url dataset_path c_type).
Proof.
  unfold fetch_filelist, urlopen_detection, urlopen_filelist, getitem. stable.

Qed.

Lemma limit_videos_emits num_videos filelist :
  emits_only not_job (limit_videos num_videos filelist).
Proof. unfold limit_videos. emits. Qed.

Lemma limit_videos_stable num_videos filelist :
  fs_stable (limit_videos num_videos filelist).
Proof. unfold limit_videos. stable. Qed.

Lemma limit_videos_returns num_videos filelist σ :
  ∃ filelist', (limit_videos num_videos filelist σ).1 = Ok filelist'.
Proof.
  unfold limit_videos. destruct num_videos as [n|]; [|by eexists].
  destruct (0 <? n)%Z; by eexists.
Qed.

(** A skipped combination: one or two lines, nothing else. *)
Lemma download_type_skips a base_url model_url dataset dataset_path filelist msg σ :
  skip_message dataset (type a) = Some msg →
  ∃ lines,
    download_type W a base_url model_url dataset dataset_path filelist σ
    = (Ok tt, {| fs := fs σ; start_time := start_time σ; asked := asked σ;
                 trace := trace σ ++ (Stdout <$> lines) ++ [Stdout msg]; seen := seen σ |}).
Proof.
  unfold skip_message, download_type. intros Hskip.
  destruct (String.eqb_spec (type a) "masks") as [->|_].
  - simpl. destruct (str_in "original" dataset).
    + inversion Hskip; subst. eexists [_]. unfold bind, print, emit. simpl.
      by rewrite <- app_assoc.
    + destruct (str_in "FaceShifter" dataset); [|done].
      inversion Hskip; subst. eexists [_]. unfold bind, print, emit. simpl.
      by rewrite <- app_assoc.
  - destruct (String.eqb_spec (type a) "models") as [->|_]; [|done]. simpl.
    destruct (negb (dataset =? "Deepfakes")%string); [|done].
    inversion Hskip; subst. by exists [].
Qed.


Lemma main_dataset_regular (a : args) (base_url model_url dataset dataset_path : string) σ :
  DATASETS !! dataset = Some dataset_path →
  str_in "original_youtube_videos" dataset = false →
  main_dataset W a base_url model_url dataset σ
  = try_except
      (filelist <- fetch_filelist W base_url dataset_path (type a) ;;
       filelist <- limit_videos (num_videos a) filelist ;;
       download_type W a base_url model_url dataset dataset_path filelist)
      (λ e, print ("Error processing dataset " +:+ dataset +:+ ": " +:+ str_exn e))
      (announced a dataset_path σ).
Proof.
  intros Hpath Hregular. unfold main_dataset, getitem.
  rewrite Hpath. unfold bind at 1. simpl. by rewrite Hregular.
Qed.

Lemma main_dataset_skips a base_url model_url dataset dataset_path msg σ :
  DATASETS !! dataset = Some dataset_path →
  str_in "original_youtube_videos" dataset = false →
  skip_message dataset (type a) = Some msg →
  skipped W a base_url model_url dataset dataset_path msg σ.
Proof.
  intros Hpath Hregular Hskip. unfold skipped. cbv zeta.
  remember (announced a dataset_path σ) as σ0 eqn:Hσ0.
  rewrite (main_dataset_regular a base_url model_url dataset dataset_path σ Hpath Hregular).
  rewrite <- Hσ0.
  assert (H0 : fs σ0 = fs σ ∧ jobs (trace σ0) = jobs (trace σ)).
  { rewrite Hσ0. unfold announced. simpl. by rewrite jobs_app, app_nil_r. }
  destruct H0 as [Hfs0 Hjobs0].
  pose proof (fetch_filelist_stable base_url dataset_path (type a) σ0) as [Hfs1 _].
  pose proof (emits_only_jobs _ σ0 (fetch_filelist_emits base_url dataset_path (type a))) as Hjobs1.
  destruct (fetch_filelist W base_url dataset_path (type a) σ0) as [[filelist|e] σ1] eqn:Hfetch;
    simpl in Hfs1, Hjobs1 |- *.
  - pose proof (limit_videos_stable (num_videos a) filelist σ1) as [Hfs2 _].
    pose proof (emits_only_jobs _ σ1 (limit_videos_emits (num_videos a) filelist)) as Hjobs2.
    destruct (limit_videos_returns (num_videos a) filelist σ1) as [filelist' Hlimit].
    destruct (limit_videos (num_videos a) filelist σ1) as [r2 σ2] eqn:Hrun2.
    simpl in Hfs2, Hjobs2, Hlimit. subst r2.
    destruct (download_type_skips a base_url model_url dataset dataset_path filelist' msg σ2 Hskip)
      as [lines Htype].
    erewrite try_ok; [|erewrite bind_ok by exact Hfetch; erewrite bind_ok by exact Hrun2; exact Htype].
    simpl. rewrite Hfs2, Hfs1, Hfs0.
    rewrite !jobs_app, (jobs_not_job (Stdout <$> lines)), app_nil_r, Hjobs2, Hjobs1, Hjobs0.
    2:{ clear. induction lines; constructor; auto. exact I. }
    rewrite app_assoc, stdout_app. simpl. by rewrite last_snoc.
  - erewrite try_raise by (erewrite bind_raise by exact Hfetch; reflexivity).
    simpl. rewrite Hfs1, Hfs0, jobs_app, stdout_app, Hjobs1, Hjobs0. simpl.
    by rewrite app_nil_r, last_snoc.
Qed.

End Resolver.

(** C6, as the code has it.  For every dataset of [ALL_DATASETS] (all
    but the two archives) and every unsupported combination (masks of
    [original], masks of [FaceShifter], models of anything but
    [Deepfakes]) the loop body returns and adds no download job.  When
    the manifest was fetched its last line is the skip message; when
    fetching the manifest raised, its last line is the error line of the
    dataset. *)
Theorem unsupported_combination_skipped (W : world) (a : args)
    (base_url model_url dataset : string) (σ : state) :
  dataset ∈ ALL_DATASETS →
  unsupported dataset (type a) →
  ∃ dataset_path msg,
    DATASETS !! dataset = Some dataset_path
    ∧ skip_message dataset (type a) = Some msg
    ∧ skipped W a base_url model_url dataset dataset_path msg σ.
Proof.
  intros Hin Hun.
  assert (Hcases : ∃ dataset_path msg,
             DATASETS !! dataset = Some dataset_path
             ∧ str_in "original_youtube_videos" dataset = false
             ∧ skip_message dataset (type a) = Some msg).
  { unfold ALL_DATASETS in Hin. rewrite !elem_of_cons, elem_of_nil in Hin.
    destruct Hun as [[HT HD]|[[HT HD]|[HT HD]]]; rewrite HT;
      destruct Hin as [->|[->|[->|[->|[->|[->|[->|[->|[]]]]]]]]];
      try discriminate; try done;
      (eexists _, _; repeat split; vm_compute; reflexivity). }
  destruct Hcases as (dataset_path & msg & Hpath & Hregular & Hskip).
  exists dataset_path, msg.
  split; [done|]. split; [done|]. by apply main_dataset_skips.
Qed.

Lemma jobs_progress evs : Forall is_progress evs → jobs evs = [].
Proof.
  induction 1 as [|e evs He _ IH]; [done|].
  destruct e; done.
Qed.

Lemma stdout_progress evs : Forall is_progress evs → stdout evs = [].
Proof.
  induction 1 as [|e evs He _ IH]; [done|].
  destruct e; done.
Qed.

(** ** The batch loop and the expansion of a manifest *)

Section Batch.

Context (W : world).

Lemma download_file_jobs (url out : string) (rp : bool) σ :
  jobs (trace (download_file W url out rp σ).2) = jobs (trace σ) ++ [(url, out)].
Proof.
  pose proof (download_file_spec W url out rp σ _ _ (run_eq _ σ)) as Hspec.
  destruct (is_file (fs σ) out).
  - destruct Hspec as (_ & _ & _ & _ & ->). by rewrite jobs_app.
  - destruct (temp_name W (fs σ) (asked σ) (w_dirname W out)) as [tmp|e0].
    + destruct Hspec as (evs & before & _ & -> & Hevs & _).
      rewrite jobs_app. simpl. by rewrite (jobs_progress evs Hevs).
    + destruct Hspec as (_ & _ & _ & ->). by rewrite jobs_app.
Qed.

(** What one round of the batch loop does with an error: it prints it. *)
Lemma download_error_logged (filename base_url output_path : string) σ :
  let attempt := download_file W (base_url +:+ filename) (w_join W output_path filename) false σ in
  let round :=
    try_except
      (download_file W (base_url +:+ filename) (w_join W output_path filename) false)
      (λ e, print ("Error downloading " +:+ filename +:+ ": " +:+ str_exn e)) σ in
  round.1 = Ok tt
  ∧ jobs (trace round.2) = jobs (trace σ) ++ [(base_url +:+ filename, w_join W output_path filename)]
  ∧ ∀ e, attempt.1 = Raise e →
         trace round.2
         = trace attempt.2 ++ [Stdout ("Error downloading " +:+ filename +:+ ": " +:+ str_exn e)].
Proof.
  intros attempt round. subst round.
  pose proof (download_file_jobs (base_url +:+ filename) (w_join W output_path filename) false σ)
    as Hjobs.
  fold attempt in Hjobs. unfold try_except. fold attempt.
  destruct attempt as [[[]|e] σ1]; simpl in *.
  - repeat split; auto. discriminate.
  - rewrite jobs_app, Hjobs. simpl. rewrite app_nil_r.
    repeat split; auto. by intros ? [= ->].
Qed.

Lemma batch_jobs (filenames : list string) (base_url output_path : string) σ :
  let run :=
    for_each filenames (λ filename,
      try_except
        (download_file W (base_url +:+ filename) (w_join W output_path filename) false)
        (λ e, print ("Error downloading " +:+ filename +:+ ": " +:+ str_exn e))) σ in
  run.1 = Ok tt
  ∧ jobs (trace run.2)
    = jobs (trace σ) ++ ((λ f, (base_url +:+ f, w_join W output_path f)) <$> filenames).
Proof.
  revert σ. induction filenames as [|f filenames IH]; intros σ; simpl.
  - by rewrite app_nil_r.
  - destruct (download_error_logged f base_url output_path σ) as (Hok & Hjobs & _).
    unfold bind.
    destruct (try_except _ _ σ) as [[[]|e] σ1]; simpl in Hok, Hjobs; [|done].
    destruct (IH σ1) as [Hok' Hjobs']. split; [done|].
    rewrite Hjobs', Hjobs, <- app_assoc. done.
Qed.

Lemma makedirs_ok (p : string) σ :
  is_file (fs σ) p = false →
  ∃ σ1, makedirs p σ = (Ok tt, σ1) ∧ trace σ1 = trace σ.
Proof.
  unfold is_file, makedirs, bind, get_fs. simpl. intros Hfile.
  destruct (fs σ !! p) as [[|]|]; [done| |]; by eexists.
Qed.

Lemma makedirs_returns (p : string) σ :
  (makedirs p σ).1 = Ok tt → is_file (fs σ) p = false.
Proof.
  unfold is_file, makedirs, bind, get_fs. simpl.
  by destruct (fs σ !! p) as [[|]|].
Qed.

Lemma download_files_jobs (filenames : list string) (base_url output_path : string)
    (rp : bool) σ :
  is_file (fs σ) output_path = false →
  let run := download_files W filenames base_url output_path rp σ in
  run.1 = Ok tt
  ∧ jobs (trace run.2)
    = jobs (trace σ) ++ ((λ f, (base_url +:+ f, w_join W output_path f)) <$> filenames).
Proof.
  intros Hfile run. subst run. unfold download_files.
  destruct (makedirs_ok output_path σ Hfile) as (σ1 & Hmk & Ht).
  rewrite (bind_ok _ _ _ _ _ Hmk), <- Ht.
  assert (Htqdm : (if rp then tqdm filenames else filenames) = filenames) by (by destruct rp).
  rewrite Htqdm. apply (batch_jobs filenames base_url output_path).
Qed.


(** The last branch of [fetch_filelist], on a manifest that arrives. *)
Lemma fetch_filelist_pairs (base_url dataset_path c_type : string)
    (file_pairs : list (list string)) σ :
  joins_pairs dataset_path = true →
  w_filelist W (asked σ) (base_url +:+ "/" +:+ FILELIST_URL) = Ok file_pairs →
  fetch_filelist W base_url dataset_path c_type σ
  = (Ok (if negb (c_type =? "models")%string
         then (str_join "_" <$> file_pairs) ++ ((λ pair, str_join "_" (reverse pair)) <$> file_pairs)
         else str_join "_" <$> file_pairs),
     {| fs := fs σ; start_time := start_time σ; asked := S (asked σ);
        trace := trace σ ++ [Urlopen (base_url +:+ "/" +:+ FILELIST_URL)];
        seen := seen σ |}).
Proof.
  unfold joins_pairs, fetch_filelist. intros Hpath Hanswer.
  apply andb_prop in Hpath as [H1 H2].
  apply negb_true_iff in H1, H2. rewrite H1, H2.
  unfold urlopen_filelist, bind, emit, ask. simpl. rewrite Hanswer. done.
Qed.



End Batch.




(** C7.  For a dataset whose pair manifest is joined and asset type
    [models], when the manifest [[a,b],[c,d]] arrives the resolver yields
    exactly a_b, c_d: each pair joined in its own order, no reversed pair,
    no suffix. *)
Theorem models_expansion (W : world) (base_url dataset_path : string) (σ : state) :
  joins_pairs dataset_path = true →
  w_filelist W (asked σ) (base_url +:+ "/" +:+ FILELIST_URL) = Ok ab_cd →
  (fetch_filelist W base_url dataset_path "models" σ).1 = Ok ["a_b"; "c_d"].
Proof.
  intros Hjoins Hanswer.
  by rewrite (fetch_filelist_pairs W base_url dataset_path "models" ab_cd σ Hjoins Hanswer).
Qed.

Lemma models_expansion_witness :
  let W := W_hello in
  let base_url := "http://canis.vc.in.tum.de:8100/v3/" in
  let dataset_path := "manipulated_sequences/Deepfakes" in
  let σ := initial ∅ in
  joins_pairs dataset_path = true
  ∧ w_filelist W (asked σ) (base_url +:+ "/" +:+ FILELIST_URL) = Ok ab_cd
  ∧ (fetch_filelist W base_url dataset_path "models" σ).1 = Ok ["a_b"; "c_d"].
Proof.
  intros W base_url dataset_path σ.
  split; [reflexivity|]. split; [reflexivity|].
  apply (models_expansion W base_url dataset_path σ); reflexivity.
Defined.

(** The whole run for the models of Deepfakes: the three model files of
    folder a_b, then those of folder c_d. *)
Example models_run :
  (jobs (trace (main W_hello (cli "Deepfakes" "models" None) (initial ∅)).2)).*2
  = (λ f, "out/manipulated_sequences/Deepfakes/models/" +:+ f)
    <$> ["a_b/decoder_A.h5"; "a_b/decoder_B.h5"; "a_b/encoder.h5";
         "c_d/decoder_A.h5"; "c_d/decoder_B.h5"; "c_d/encoder.h5"].
Proof. vm_compute. reflexivity. Qed.

(** C8.  The limit step leaves the list as it is when there is no limit
    or the limit is not positive, and keeps its first [n] entries when
    the limit [n] is positive; a limit of one keeps the first entry
    only. *)
Theorem limit_videos_truncates (filelist : list string) (n : Z) (σ : state) :
  (limit_videos None filelist σ).1 = Ok filelist
  ∧ ((n ≤ 0)%Z → (limit_videos (Some n) filelist σ).1 = Ok filelist)
  ∧ ((0 < n)%Z → (limit_videos (Some n) filelist σ).1 = Ok (take (Z.to_nat n) filelist))
  ∧ (limit_videos (Some 1%Z) filelist σ).1 = Ok (take 1 filelist).
Proof.
  unfold limit_videos. repeat split.
  - intros Hn. by rewrite (proj2 (Z.ltb_ge 0 n) Hn).
  - intros Hn. by rewrite (proj2 (Z.ltb_lt 0 n) Hn).
Qed.

Lemma limit_videos_truncates_witness :
  let filelist := ["a_b"; "c_d"; "b_a"; "d_c"] in
  ((-1 ≤ 0)%Z ∧ (limit_videos (Some (-1)%Z) filelist (initial ∅)).1 = Ok filelist)
  ∧ ((0 < 3)%Z ∧ (limit_videos (Some 3%Z) filelist (initial ∅)).1 = Ok ["a_b"; "c_d"; "b_a"])
  ∧ (limit_videos (Some 1%Z) filelist (initial ∅)).1 = Ok ["a_b"].
Proof.
  intros filelist. split; [|split].
  - split; [lia|].
    apply (proj1 (proj2 (limit_videos_truncates filelist (-1) (initial ∅)))). lia.
  - split; [lia|].
    apply (proj1 (proj2 (proj2 (limit_videos_truncates filelist 3 (initial ∅))))). lia.
  - apply (proj2 (proj2 (proj2 (limit_videos_truncates filelist 0 (initial ∅))))).
Defined.

(** C6, as stated, fails: models of [original_youtube_videos] is a
    combination of models with a dataset other than Deepfakes, and the run
    downloads the archive all the same. *)
Lemma archive_models_counterexample :
  let a := cli "original_youtube_videos" "models" None in
  parse_args_accepts a = true
  ∧ unsupported (dataset a) (type a)
  ∧ jobs (trace (main W_hello a (initial ∅)).2)
    = [("http://canis.vc.in.tum.de:8100/v3//misc/downloaded_youtube_videos.zip",
        "out/downloaded_videos.zip")].
Proof.
  split; [vm_compute; reflexivity|]. split.
  - right. right. split; [reflexivity | discriminate].
  - vm_compute. reflexivity.
Qed.

Lemma unsupported_combination_skipped_witness :
  let W := W_hello in
  let a := cli "FaceShifter" "masks" (Some 1%Z) in
  let base_url := "http://canis.vc.in.tum.de:8100/v3/" in
  let model_url := "http://canis.vc.in.tum.de:8100/v3/manipulated_sequences/Deepfakes/models/" in
  ("FaceShifter" ∈ ALL_DATASETS ∧ unsupported "FaceShifter" (type a))
  ∧ ∃ dataset_path msg,
      DATASETS !! "FaceShifter" = Some dataset_path
      ∧ skip_message "FaceShifter" (type a) = Some msg
      ∧ skipped W a base_url model_url "FaceShifter" dataset_path msg (initial ∅).
Proof.
  intros W a base_url model_url.
  assert (Hin : "FaceShifter" ∈ ALL_DATASETS) by (apply (bool_decide_unpack _); vm_compute; exact I).
  assert (Hun : unsupported "FaceShifter" (type a)) by (right; left; split; reflexivity).
  split; [by split|].
  exact (unsupported_combination_skipped W a base_url model_url "FaceShifter" (initial ∅) Hin Hun).
Defined.

(** Masks of every dataset in one run: three datasets are skipped, one
    manifest is missing, four datasets are downloaded. *)
Example masks_of_all :
  let run := main W_hello (cli "all" "masks" (Some 1%Z)) (initial ∅) in
  run.1 = Ok tt
  ∧ (jobs (trace run.2)).*2
    = ["out/manipulated_sequences/Deepfakes/videos/a_b.mp4";
       "out/manipulated_sequences/Face2Face/videos/a_b.mp4";
       "out/manipulated_sequences/FaceSwap/videos/a_b.mp4";
       "out/manipulated_sequences/NeuralTextures/videos/a_b.mp4"].
Proof. vm_compute. auto. Qed.

(** C10, as stated, fails: when the cohort manifest cannot be fetched,
    masks of [DeepFakeDetection_original] end with the error line of the
    dataset, and the message for original data is never printed. *)
Lemma masks_of_actors_counterexample :
  let run := main W_hello (cli "DeepFakeDetection_original" "masks" None) (initial ∅) in
  ("Skipping masks for original data." ∉ stdout (trace run.2))
  ∧ stdout (trace run.2)
    = ["Confirm FaceForensics Terms of Use";
       "Downloading masks of dataset " +:+ dquote +:+ "original_sequences/actors" +:+ dquote;
       "Error processing dataset DeepFakeDetection_original: "
       +:+ "<urlopen error [Errno 111] Connection refused>"].
Proof.
  split.
  - apply (bool_decide_unpack _). vm_compute. exact I.
  - vm_compute. reflexivity.
Qed.

(** C10, as the code has it.  With asset type [masks], the loop body for
    [DeepFakeDetection_original] returns and adds no download job,
    because ['original' in dataset] holds of that name too.  When the
    manifest step returns, the last line printed is the message for
    original data; when the manifest step raises, it is the error line
    of the dataset. *)
Theorem masks_of_actors_skipped (W : world) (a : args) (base_url model_url : string)
    (σ : state) :
  type a = "masks" →
  let run := main_dataset W a base_url model_url "DeepFakeDetection_original" σ in
  let manifest :=
    (fetch_filelist W base_url "original_sequences/actors" "masks"
       (announced a "original_sequences/actors" σ)).1 in
  run.1 = Ok tt
  ∧ fs run.2 = fs σ
  ∧ jobs (trace run.2) = jobs (trace σ)
  ∧ (∀ filelist, manifest = Ok filelist →
       last (stdout (trace run.2)) = Some "Skipping masks for original data.")
  ∧ (∀ e, manifest = Raise e →
       last (stdout (trace run.2))
       = Some ("Error processing dataset DeepFakeDetection_original: " +:+ str_exn e)).
Proof.
  intros Htype run manifest.
  destruct (main_dataset_skips W a base_url model_url "DeepFakeDetection_original"
              "original_sequences/actors" "Skipping masks for original data." σ)
    as (Hok & Hfs & Hjobs & Hlast); [reflexivity | reflexivity | |].
  { unfold skip_message. by rewrite Htype. }
  rewrite Htype in Hlast. fold manifest in Hlast. fold run in Hok, Hfs, Hjobs, Hlast.
  repeat split; [done..| |].
  - intros filelist Hm. by rewrite Hlast, Hm.
  - intros e Hm. by rewrite Hlast, Hm.
Qed.

Lemma masks_of_actors_skipped_witness :
  let W := W_actors in
  let a := cli "DeepFakeDetection_original" "masks" None in
  let base_url := "http://canis.vc.in.tum.de:8100/v3/" in
  let σ := initial ∅ in
  let run := main_dataset W a base_url base_url "DeepFakeDetection_original" σ in
  let manifest :=
    (fetch_filelist W base_url "original_sequences/actors" "masks"
       (announced a "original_sequences/actors" σ)).1 in
  (type a = "masks" ∧ manifest = Ok ["01__kitchen_pan"; "02__walking_outside"])
  ∧ run.1 = Ok tt
  ∧ fs run.2 = fs σ
  ∧ jobs (trace run.2) = jobs (trace σ)
  ∧ (∀ filelist, manifest = Ok filelist →
       last (stdout (trace run.2)) = Some "Skipping masks for original data.")
  ∧ (∀ e, manifest = Raise e →
       last (stdout (trace run.2))
       = Some ("Error processing dataset DeepFakeDetection_original: " +:+ str_exn e)).
Proof.
  intros W a base_url σ run manifest. split; [split; reflexivity|].
  apply (masks_of_actors_skipped W a base_url base_url σ). reflexivity.
Defined.

(** The same on a world that serves the cohort manifest, as a run. *)
Example masks_of_actors_run :
  let run := main W_actors (cli "DeepFakeDetection_original" "masks" None) (initial ∅) in
  run.1 = Ok tt
  ∧ jobs (trace run.2) = []
  ∧ stdout (trace run.2)
    = ["Confirm FaceForensics Terms of Use";
       "Downloading masks of dataset " +:+ dquote +:+ "original_sequences/actors" +:+ dquote;
       "Output path: out/original_sequences/actors/videos";
       "Skipping masks for original data."].
Proof. vm_compute. auto. Qed.

(** ** Errors *)

Lemma try_print_returns (m : M unit) (line : exn → string) σ :
  (try_except m (λ e, print (line e)) σ).1 = Ok tt.
Proof.
  unfold try_except. by destruct (m σ) as [[[]|e] σ1].
Qed.

(** A regular dataset never ends the loop: whatever is raised while it is
    processed is printed. *)
Lemma main_dataset_returns (W : world) (a : args) (base_url model_url dataset dataset_path : string)
    (σ : state) :
  DATASETS !! dataset = Some dataset_path →
  str_in "original_youtube_videos" dataset = false →
  (main_dataset W a base_url model_url dataset σ).1 = Ok tt.
Proof.
  intros Hpath Hregular.
  rewrite (main_dataset_regular W a base_url model_url dataset dataset_path σ Hpath Hregular).
  apply (try_print_returns _ (λ e, "Error processing dataset " +:+ dataset +:+ ": " +:+ str_exn e)).
Qed.

(** An archive dataset hands the error of its download to the loop. *)
Lemma archive_error_propagates (W : world) (a : args)
    (base_url model_url dataset dataset_path : string) (σ : state) :
  DATASETS !! dataset = Some dataset_path →
  str_in "original_youtube_videos" dataset = true →
  ∃ line url out,
    main_dataset W a base_url model_url dataset σ
    = download_file W url out true (print line σ).2.
Proof.
  intros Hpath Harchive. unfold main_dataset, getitem.
  rewrite Hpath. unfold bind at 1. simpl. rewrite Harchive.
  by eexists _, _, _.
Qed.

(** C5 fails on the archives.  With the network down, the run for
    [original_youtube_videos] ends with the exception of the download:
    [main] raises, and no line about the error is printed.  On the same
    world a regular dataset prints the error of every file and [main]
    returns. *)
Theorem archive_failure_aborts_main :
  let archive := main W_down (cli "original_youtube_videos" "videos" None) (initial ∅) in
  let regular := main W_down (cli "FaceSwap" "videos" (Some 2%Z)) (initial ∅) in
  parse_args_accepts (cli "original_youtube_videos" "videos" None) = true
  ∧ archive.1
    = Raise (Exn "RuntimeError" "Download failed: <urlopen error [Errno 111] Connection refused>")
  ∧ stdout (trace archive.2)
    = ["Confirm FaceForensics Terms of Use"; "Downloading original youtube videos."]
  ∧ regular.1 = Ok tt
  ∧ stdout (trace regular.2)
    = ["Confirm FaceForensics Terms of Use";
       "Downloading videos of dataset " +:+ dquote +:+ "manipulated_sequences/FaceSwap" +:+ dquote;
       "Downloading first 2 videos";
       "Output path: out/manipulated_sequences/FaceSwap/c23/videos";
       "Error downloading a_b.mp4: Download failed: <urlopen error [Errno 111] Connection refused>";
       "Error downloading c_d.mp4: Download failed: <urlopen error [Errno 111] Connection refused>"].
Proof. vm_compute. auto. Qed.

(** C9 fails.  Called with a count of one and a total size of zero the
    hook raises [ZeroDivisionError], whatever the clock shows.  And under
    a clock that shows the same time twice, a download whose content
    arrived in full fails because of the hook: [download_file] raises and
    nothing is at the destination. *)
Theorem reporthook_raises :
  (∀ (W : world) (σ : state),
     ∃ msg, (reporthook W 1 8192 0 σ).1 = Raise (Exn "ZeroDivisionError" msg))
  ∧ let url := "http://host/v3/misc/downloaded_youtube_videos.zip" in
    let out := "out/downloaded_videos.zip" in
    let run := download_file W_coarse_clock url out true (initial ∅) in
    delivered (w_urlretrieve W_coarse_clock 1 url None) = Some (bytes "hello")
    ∧ run.1 = Raise (Exn "RuntimeError" "Download failed: float division by zero")
    ∧ fs run.2 !! out = None.
Proof.
  split.
  - intros W σ. unfold reporthook. simpl.
    unfold bind, time_time, ask, get_start_time, truediv. simpl.
    destruct (Qeq_bool _ 0); simpl; eauto.
  - vm_compute. auto.
Qed.

(** On a network whose [urlretrieve] takes no [context] keyword, the
    branch without progress reporting raises before any request is made:
    every file of the batch loop fails and is printed, and only the
    archives, fetched with progress reporting, arrive. *)
Example no_context_keyword :
  let batch := main W_no_context (cli "FaceSwap" "videos" (Some 1%Z)) (initial ∅) in
  let archive := main W_no_context (cli "original_youtube_videos" "videos" None) (initial ∅) in
  batch.1 = Ok tt
  ∧ last (stdout (trace batch.2))
    = Some ("Error downloading a_b.mp4: Download failed: "
            +:+ "urlretrieve() got an unexpected keyword argument 'context'")
  ∧ is_file (fs batch.2) "out/manipulated_sequences/FaceSwap/c23/videos/a_b.mp4" = false
  ∧ archive.1 = Ok tt
  ∧ fs archive.2 !! "out/downloaded_videos.zip" = Some (File (bytes "hello")).
Proof. vm_compute. auto 6. Qed.

(** * Further properties of the script *)

(** ** More on the file fetcher *)

(** X1.  [download_file] changes the file system at its destination
    only: every other path holds after the call what it held before,
    whether the call downloads, skips or raises. *)
Theorem download_file_frame (W : world) (url out : string) (rp : bool) (σ : state)
    (p : string) :
  p ≠ out → fs (download_file W url out rp σ).2 !! p = fs σ !! p.
Proof.
  intros Hne.
  pose proof (download_file_spec W url out rp σ _ _ (run_eq _ σ)) as Hspec.
  destruct (is_file (fs σ) out).
  { destruct Hspec as (_ & -> & _). done. }
  destruct (temp_name W (fs σ) (asked σ) (w_dirname W out)) as [tmp|e0].
  - destruct Hspec as (evs & before & _ & _ & _ & _ & _ & Hend).
    destruct Hend as [(body & _ & _ & ->)|(e & _ & ->)]; [|done].
    by rewrite lookup_insert_ne.
  - destruct Hspec as (_ & -> & _). done.
Qed.

Lemma download_file_frame_witness :
  let σ := (download_file W_hello "http://host/v3/a.zip" "out/a.zip" true (initial ∅)).2 in
  "out/a.zip" ≠ "out/b.zip"
  ∧ fs (download_file W_broken "http://host/v3/b.zip" "out/b.zip" false σ).2 !! "out/a.zip"
    = fs σ !! "out/a.zip".
Proof.
  intros σ. split; [discriminate|].
  apply (download_file_frame W_broken "http://host/v3/b.zip" "out/b.zip" false σ "out/a.zip").
  discriminate.
Defined.

(** X2.  One call makes at most one request, and none when the
    destination is a file: nothing is retried. *)
Theorem download_file_no_retry (W : world) (url out : string) (rp : bool) (σ : state) :
  ∃ new,
    requests (trace (download_file W url out rp σ).2) = requests (trace σ) ++ new
    ∧ length new ≤ 1
    ∧ (is_file (fs σ) out = true → new = []).
Proof.
  pose proof (download_file_spec W url out rp σ _ _ (run_eq _ σ)) as Hspec.
  destruct (is_file (fs σ) out).
  { destruct Hspec as (_ & _ & _ & _ & ->). exists [].
    rewrite requests_app. simpl. auto. }
  destruct (temp_name W (fs σ) (asked σ) (w_dirname W out)) as [tmp|e0].
  - destruct Hspec as (evs & before & _ & -> & Hevs & _).
    exists [Urlretrieve url tmp rp (context_for rp)].
    rewrite requests_app. simpl. rewrite (requests_progress evs Hevs).
    repeat split; [lia | discriminate].
  - destruct Hspec as (_ & _ & _ & ->). exists [].
    rewrite requests_app. simpl. split; [done|]. split; [lia | discriminate].
Qed.

(** X3.  What [download_file] raises: when no temporary file could be
    created, the error of that step, as it is; once the temporary file is
    there, always a RuntimeError whose message starts with
    [Download failed: ]. *)
Theorem download_file_error_label (W : world) (url out : string) (rp : bool) (σ : state)
    (e : exn) :
  (download_file W url out rp σ).1 = Raise e →
  match temp_name W (fs σ) (asked σ) (w_dirname W out) with
  | Raise e0 => e = e0
  | Ok _ => ∃ cause, e = Exn "RuntimeError" ("Download failed: " +:+ str_exn cause)
  end.
Proof.
  intros Hraise.
  pose proof (download_file_spec W url out rp σ _ _ (run_eq _ σ)) as Hspec.
  rewrite Hraise in Hspec.
  destruct (is_file (fs σ) out); [by destruct Hspec|].
  destruct (temp_name W (fs σ) (asked σ) (w_dirname W out)) as [tmp|e0].
  - destruct Hspec as (evs & before & _ & _ & _ & _ & _ & Hend).
    destruct Hend as [(body & ? & _)|(cause & [= ->] & _)]; [done|]. eauto.
  - destruct Hspec as ([= ->] & _). done.
Qed.

Lemma download_file_error_label_witness :
  let run := download_file W_broken "http://host/v3/a.zip" "out/a.zip" false (initial ∅) in
  let e := Exn "RuntimeError" "Download failed: [Errno 104] Connection reset by peer" in
  run.1 = Raise e
  ∧ ∃ cause, e = Exn "RuntimeError" ("Download failed: " +:+ str_exn cause).
Proof.
  intros run e. split; [reflexivity|].
  exact (download_file_error_label W_broken "http://host/v3/a.zip" "out/a.zip" false
           (initial ∅) e eq_refl).
Defined.

Lemma rename_onto_dir (tmp out : string) (body : list Byte.byte) (f : filesystem) σ :
  fs σ = <[tmp := File body]> f → f !! tmp = None → f !! out = Some Dir →
  rename tmp out σ = (Raise (Exn "IsADirectoryError" out), σ).
Proof.
  intros Hfs Hfresh Hdir. unfold rename, bind, get_fs. simpl.
  rewrite Hfs, lookup_insert_eq. simpl.
  rewrite lookup_insert_ne by congruence. by rewrite Hdir.
Qed.

(** Past the existence test and the creation of the temporary file. *)
Lemma download_file_started (W : world) (url out tmp : string) (rp : bool) (σ : state) :
  is_file (fs σ) out = false →
  temp_name W (fs σ) (asked σ) (w_dirname W out) = Ok tmp →
  fs σ !! tmp = None
  ∧ download_file W url out rp σ
    = try_except
        (urlretrieve W url tmp (if rp then Some (reporthook W) else None) (context_for rp) ;;
         rename tmp out)
        (λ e, unlink tmp ;;
              raise (Exn "RuntimeError" ("Download failed: " +:+ str_exn e)))
        {| fs := <[tmp := File []]> (fs σ); start_time := start_time σ;
           asked := S (asked σ); trace := trace σ ++ [Job url out];
           seen := seen σ ++ [<[tmp := File []]> (fs σ)] |}.
Proof.
  intros Hfile Htemp. unfold temp_name in Htemp.
  destruct (w_mkstemp W (asked σ) (w_dirname W out)) as [names|e] eqn:Hnames; [|done].
  destruct (List.find (λ p, bool_decide (fs σ !! p = None)) names) as [tmp'|] eqn:Hfind;
    [|done].
  injection Htemp as ->.
  apply find_some in Hfind as Hfresh. destruct Hfresh as [_ Hfresh].
  apply bool_decide_eq_true in Hfresh. split; [done|].
  unfold download_file.
  unfold bind at 1. simpl.
  unfold bind at 1. unfold isfile at 1. unfold bind at 1, get_fs.
  simpl. rewrite Hfile. simpl.
  unfold NamedTemporaryFile.
  unfold bind at 1. unfold bind at 1. simpl.
  unfold bind at 1. rewrite Hnames. simpl.
  unfold bind at 1. simpl. rewrite Hfind. simpl.
  by destruct rp.
Qed.

(** X4.  When a directory sits at the destination, [isfile] is false and
    the download is attempted all the same, but the call never returns:
    the final rename fails, the temporary file is removed, and the file
    system is left as it was. *)
Theorem download_file_onto_directory (W : world) (url out : string) (rp : bool) (σ : state) :
  fs σ !! out = Some Dir →
  (∃ e, (download_file W url out rp σ).1 = Raise e)
  ∧ fs (download_file W url out rp σ).2 = fs σ.
Proof.
  intros Hdir.
  assert (Hfile : is_file (fs σ) out = false) by (unfold is_file; by rewrite Hdir).
  destruct (temp_name W (fs σ) (asked σ) (w_dirname W out)) as [tmp|e0] eqn:Htemp.
  2:{ pose proof (download_file_spec W url out rp σ _ _ (run_eq _ σ)) as Hspec.
      rewrite Hfile, Htemp in Hspec. destruct Hspec as (-> & -> & _). eauto. }
  destruct (download_file_started W url out tmp rp σ Hfile Htemp) as [Hfresh ->].
  match goal with |- context [try_except _ _ ?s] => set (σt := s) end.
  set (h := (if rp then Some (reporthook W) else None)).
  assert (Hstable : ∀ g, h = Some g → ∀ c b t, fs_stable (g c b t)).
  { intros g Hg c b t. destruct rp; inversion Hg. apply reporthook_stable. }
  destruct (urlretrieve W url tmp h (context_for rp) σt) as [r2 σ2] eqn:Hu.
  destruct (urlretrieve_spec W url tmp h (context_for rp) (fs σ) σt [] r2 σ2 Hstable eq_refl Hu)
    as (body & snaps & Hfs2 & _).
  destruct (unlink_spec tmp body (fs σ) σ2 Hfs2 Hfresh) as (σu & Hunlink & Hfsu & _).
  assert (Hfailed : ∀ e, (bind (unlink tmp)
              (λ _, @raise unit (Exn "RuntimeError" ("Download failed: " +:+ str_exn e)))) σ2
            = (Raise (Exn "RuntimeError" ("Download failed: " +:+ str_exn e)), σu)).
  { intros e. by rewrite (bind_ok _ _ _ _ _ Hunlink). }
  destruct r2 as [[]|e].
  - pose proof (rename_onto_dir tmp out body (fs σ) σ2 Hfs2 Hfresh Hdir) as Hren.
    erewrite try_raise by (by erewrite bind_ok by exact Hu).
    rewrite Hfailed. simpl. eauto.
  - erewrite try_raise by (by erewrite bind_raise by exact Hu).
    rewrite Hfailed. simpl. eauto.
Qed.

Lemma download_file_onto_directory_witness :
  let σ := (makedirs "out/a.zip" (initial ∅)).2 in
  fs σ !! "out/a.zip" = Some Dir
  ∧ (∃ e, (download_file W_hello "http://host/v3/a.zip" "out/a.zip" true σ).1 = Raise e)
  ∧ fs (download_file W_hello "http://host/v3/a.zip" "out/a.zip" true σ).2 = fs σ.
Proof.
  intros σ. split; [reflexivity|].
  apply (download_file_onto_directory W_hello "http://host/v3/a.zip" "out/a.zip" true σ).
  reflexivity.
Defined.

Lemma urlretrieve_refused (W : world) (url filename : string) (h : option hook)
    (context : option ssl_context) (e : exn) σ :
  w_urlretrieve W (asked σ) url context = Refused e →
  (urlretrieve W url filename h context σ).1 = Raise e
  ∧ fs (urlretrieve W url filename h context σ).2 = fs σ.
Proof.
  intros Hanswer. unfold urlretrieve, bind, emit, ask. simpl. by rewrite Hanswer.
Qed.

(** X5.  When the server refuses the request, the call raises the
    RuntimeError that carries the message of the refusal, and the file
    system is as before: nothing at the destination is created and the
    temporary file is gone. *)
Theorem download_file_refused (W : world) (url out tmp : string) (rp : bool) (σ : state)
    (e0 : exn) :
  is_file (fs σ) out = false →
  temp_name W (fs σ) (asked σ) (w_dirname W out) = Ok tmp →
  w_urlretrieve W (S (asked σ)) url (context_for rp) = Refused e0 →
  (download_file W url out rp σ).1
  = Raise (Exn "RuntimeError" ("Download failed: " +:+ str_exn e0))
  ∧ fs (download_file W url out rp σ).2 = fs σ.
Proof.
  intros Hfile Htemp Hanswer.
  destruct (download_file_started W url out tmp rp σ Hfile Htemp) as [Hfresh ->].
  match goal with |- context [try_except _ _ ?s] => set (σt := s) end.
  set (h := (if rp then Some (reporthook W) else None)).
  destruct (urlretrieve_refused W url tmp h (context_for rp) e0 σt Hanswer) as [Hr Hfs2].
  destruct (urlretrieve W url tmp h (context_for rp) σt) as [r2 σ2] eqn:Hu.
  simpl in Hr, Hfs2. subst r2.
  destruct (unlink_spec tmp [] (fs σ) σ2 Hfs2 Hfresh) as (σu & Hunlink & Hfsu & _).
  erewrite try_raise by (by erewrite bind_raise by exact Hu).
  by rewrite (bind_ok _ _ _ _ _ Hunlink).
Qed.

Lemma download_file_refused_witness :
  let σ := initial ∅ in
  let e0 := Exn "URLError" "<urlopen error [Errno 111] Connection refused>" in
  (is_file (fs σ) "out/a.zip" = false
   ∧ temp_name W_down (fs σ) (asked σ) (w_dirname W_down "out/a.zip") = Ok "out/tmpk3v9x2aq"
   ∧ w_urlretrieve W_down (S (asked σ)) "http://host/v3/a.zip" (context_for true) = Refused e0)
  ∧ (download_file W_down "http://host/v3/a.zip" "out/a.zip" true σ).1
    = Raise (Exn "RuntimeError" ("Download failed: " +:+ str_exn e0))
  ∧ fs (download_file W_down "http://host/v3/a.zip" "out/a.zip" true σ).2 = fs σ.
Proof.
  intros σ e0. split; [repeat split; reflexivity|].
  apply (download_file_refused W_down "http://host/v3/a.zip" "out/a.zip" "out/tmpk3v9x2aq"
           true σ e0); reflexivity.
Defined.

(** ** More on the batch loop *)

(** X6.  When [os.makedirs] succeeds on the output path,
    [download_files] returns normally and has attempted every file name,
    once each and in order, whatever happened to the single downloads. *)
Theorem download_files_attempts_all (W : world) (filenames : list string)
    (base_url output_path : string) (rp : bool) (σ : state) :
  (makedirs output_path σ).1 = Ok tt →
  (download_files W filenames base_url output_path rp σ).1 = Ok tt
  ∧ jobs (trace (download_files W filenames base_url output_path rp σ).2)
    = jobs (trace σ) ++ ((λ f, (base_url +:+ f, w_join W output_path f)) <$> filenames).
Proof.
  intros Hmade. apply makedirs_returns in Hmade.
  exact (download_files_jobs W filenames base_url output_path rp σ Hmade).
Qed.

Lemma download_files_attempts_all_witness :
  let filenames := ["a_b.mp4"; "c_d.mp4"] in
  (makedirs "out" (initial ∅)).1 = Ok tt
  ∧ (download_files W_down filenames "http://host/v3/" "out" true (initial ∅)).1 = Ok tt
  ∧ jobs (trace (download_files W_down filenames "http://host/v3/" "out" true (initial ∅)).2)
    = jobs (trace (initial ∅))
      ++ ((λ f, ("http://host/v3/" +:+ f, w_join W_down "out" f)) <$> filenames).
Proof.
  intros filenames. split; [reflexivity|].
  apply (download_files_attempts_all W_down filenames "http://host/v3/" "out" true (initial ∅)).
  reflexivity.
Defined.




(** ** More on the resolver *)

Lemma manifests_app t1 t2 : manifests (t1 ++ t2) = manifests t1 ++ manifests t2.
Proof. apply omap_app. Qed.

Lemma manifests_not_urlopen evs : Forall not_urlopen evs → manifests evs = [].
Proof.
  induction 1 as [|e evs He _ IH]; [done|].
  destruct e; done.
Qed.

Lemma emits_only_manifests {A} (m : M A) σ :
  emits_only not_urlopen m → manifests (trace (m σ).2) = manifests (trace σ).
Proof.
  intros Hm. destruct (Hm σ) as (evs & -> & Hevs).
  by rewrite manifests_app, (manifests_not_urlopen evs Hevs), app_nil_r.
Qed.

Lemma try_bind_ok {A B} (m : M A) (k : A → M B) (h : exn → M B) σ a σ1 :
  m σ = (Ok a, σ1) → try_except (bind m k) h σ = try_except (k a) h σ1.
Proof. intros H. unfold try_except, bind. by rewrite H. Qed.

Lemma try_bind_raise {A B} (m : M A) (k : A → M B) (h : exn → M B) σ e σ1 :
  m σ = (Raise e, σ1) → try_except (bind m k) h σ = h e σ1.
Proof. intros H. unfold try_except, bind. by rewrite H. Qed.

Section Datasets.

Context (W : world).

Lemma download_file_quiet (url out : string) (rp : bool) :
  emits_only not_urlopen (download_file W url out rp).
Proof.
  intros σ.
  pose proof (download_file_spec W url out rp σ _ _ (run_eq _ σ)) as Hspec.
  destruct (is_file (fs σ) out).
  { destruct Hspec as (_ & _ & _ & _ & ->). eexists. split; [done|].
    repeat constructor. }
  destruct (temp_name W (fs σ) (asked σ) (w_dirname W out)) as [tmp|e0].
  - destruct Hspec as (evs & before & _ & -> & Hevs & _). eexists. split; [done|].
    repeat constructor. eapply Forall_impl; [exact Hevs|]. by intros [].
  - destruct Hspec as (_ & _ & _ & ->). eexists. split; [done|]. repeat constructor.
Qed.

Lemma download_files_quiet (filenames : list string) (base_url output_path : string)
    (rp : bool) :
  emits_only not_urlopen (download_files W filenames base_url output_path rp).
Proof.
  unfold download_files, makedirs.
  apply emits_only_bind; [emits|intros _].
  apply emits_only_for_each. intros filename.
  apply emits_only_try; [apply download_file_quiet | intros e; emits].
Qed.

Lemma download_type_quiet (a : args) (base_url model_url dataset dataset_path : string)
    (filelist : list string) :
  emits_only not_urlopen
    (download_type W a base_url model_url dataset dataset_path filelist).
Proof.
  unfold download_type.
  repeat first
    [ apply download_files_quiet
    | apply emits_only_for_each; intros ?
    | apply emits_only_bind; [|intros ?]
    | apply emits_only_emit; exact I
    | apply emits_only_ret
    | match goal with
      | |- emits_only _ (if ?x then _ else _) => destruct x
      end ].
Qed.

Lemma limit_videos_quiet num_videos filelist :
  emits_only not_urlopen (limit_videos num_videos filelist).
Proof. unfold limit_videos. emits. Qed.

Lemma limit_videos_limited num_videos filelist σ :
  (limit_videos num_videos filelist σ).1 = Ok (limited num_videos filelist).
Proof.
  unfold limit_videos, limited. destruct num_videos as [n|]; [|done].
  by destruct (0 <? n)%Z.
Qed.

(** The manifest step makes one request, whatever comes of it. *)
Lemma fetch_filelist_request (base_url dataset_path c_type : string) σ :
  trace (fetch_filelist W base_url dataset_path c_type σ).2
  = trace σ ++ [Urlopen (manifest_url base_url dataset_path)].
Proof.
  unfold fetch_filelist, manifest_url.
  destruct (str_in "DeepFakeDetection" dataset_path || str_in "actors" dataset_path).
  - unfold urlopen_detection, bind, emit, ask. simpl.
    destruct (w_detection W (asked σ) _) as [m|e]; simpl; [|done].
    unfold getitem. destruct (str_in "actors" dataset_path);
      match goal with |- context [?m !! ?k] => destruct (m !! k) end; done.
  - destruct (str_in "original" dataset_path);
      unfold urlopen_filelist, bind, emit, ask; simpl;
      destruct (w_filelist W (asked σ) _); done.
Qed.

(** A regular dataset whose manifest step yields a list: what is left is
    the download of the limited list. *)
Lemma main_dataset_fetched (a : args) (base_url model_url dataset dataset_path : string)
    (filelist : list string) σ :
  DATASETS !! dataset = Some dataset_path →
  str_in "original_youtube_videos" dataset = false →
  (fetch_filelist W base_url dataset_path (type a) (announced a dataset_path σ)).1
  = Ok filelist →
  ∃ σ2,
    main_dataset W a base_url model_url dataset σ
    = try_except
        (download_type W a base_url model_url dataset dataset_path
           (limited (num_videos a) filelist))
        (λ e, print ("Error processing dataset " +:+ dataset +:+ ": " +:+ str_exn e))
        σ2
    ∧ fs σ2 = fs σ
    ∧ jobs (trace σ2) = jobs (trace σ)
    ∧ manifests (trace σ2) = manifests (trace σ) ++ [manifest_url base_url dataset_path].
Proof.
  intros Hpath Hregular Hfetch.
  rewrite (main_dataset_regular W a base_url model_url dataset dataset_path σ Hpath Hregular).
  remember (announced a dataset_path σ) as σ0 eqn:Hσ0.
  assert (H0 : fs σ0 = fs σ ∧ jobs (trace σ0) = jobs (trace σ)
               ∧ manifests (trace σ0) = manifests (trace σ)).
  { rewrite Hσ0. unfold announced. simpl.
    by rewrite jobs_app, manifests_app, !app_nil_r. }
  destruct H0 as (Hfs0 & Hjobs0 & Hman0).
  pose proof (fetch_filelist_stable W base_url dataset_path (type a) σ0) as [Hfs1 _].
  pose proof (emits_only_jobs _ σ0 (fetch_filelist_emits W base_url dataset_path (type a)))
    as Hjobs1.
  pose proof (fetch_filelist_request base_url dataset_path (type a) σ0) as Ht1.
  destruct (fetch_filelist W base_url dataset_path (type a) σ0) as [r1 σ1] eqn:Hrun1.
  simpl in Hfetch, Hfs1, Hjobs1, Ht1. subst r1.
  pose proof (limit_videos_stable (num_videos a) filelist σ1) as [Hfs2 _].
  pose proof (emits_only_jobs _ σ1 (limit_videos_emits (num_videos a) filelist)) as Hjobs2.
  pose proof (emits_only_manifests _ σ1 (limit_videos_quiet (num_videos a) filelist)) as Hman2.
  pose proof (limit_videos_limited (num_videos a) filelist σ1) as Hlimit.
  destruct (limit_videos (num_videos a) filelist σ1) as [r2 σ2] eqn:Hrun2.
  simpl in Hfs2, Hjobs2, Hman2, Hlimit. subst r2.
  exists σ2.
  rewrite (try_bind_ok _ _ _ _ _ _ Hrun1), (try_bind_ok _ _ _ _ _ _ Hrun2).
  rewrite Hfs2, Hfs1, Hfs0, Hjobs2, Hjobs1, Hjobs0, Hman2, Ht1, manifests_app, Hman0.
  done.
Qed.


(** The batch of one dataset inside the [try] of the loop body. *)
Lemma batch_in_try (line url out : string) (filenames : list string) (h : exn → M unit) σ :
  is_file (fs σ) out = false →
  let run := try_except (print line ;; download_files W filenames url out true) h σ in
  run.1 = Ok tt
  ∧ jobs (trace run.2)
    = jobs (trace σ) ++ ((λ f, (url +:+ f, w_join W out f)) <$> filenames).
Proof.
  intros Hfile run. subst run.
  assert (Hprint : print line σ = (Ok tt, (print line σ).2)) by done.
  rewrite (try_bind_ok _ _ _ _ _ _ Hprint).
  destruct (download_files_jobs W filenames url out true (print line σ).2 Hfile)
    as [Hok Hjobs].
  destruct (download_files W filenames url out true (print line σ).2) as [r σ1] eqn:Hrun.
  simpl in Hok, Hjobs. subst r.
  rewrite (try_ok _ _ _ _ _ Hrun). simpl. split; [done|].
  by rewrite Hjobs, jobs_app, app_nil_r.
Qed.

Lemma batch_blocked (line url out : string) (filenames : list string) (h : exn → M unit) σ :
  is_file (fs σ) out = true →
  try_except (print line ;; download_files W filenames url out true) h σ
  = h (Exn "FileExistsError" out) (print line σ).2.
Proof.
  intros Hfile.
  assert (Hprint : print line σ = (Ok tt, (print line σ).2)) by done.
  rewrite (try_bind_ok _ _ _ _ _ _ Hprint).
  apply try_raise. unfold download_files. apply bind_raise.
  unfold makedirs, bind, get_fs. simpl. unfold is_file in Hfile.
  by destruct (fs σ !! out) as [[|]|].
Qed.

Lemma main_dataset_videos (a : args) (base_url model_url dataset dataset_path : string)
    (filelist : list string) σ :
  DATASETS !! dataset = Some dataset_path →
  str_in "original_youtube_videos" dataset = false →
  type a = "videos" →
  (fetch_filelist W base_url dataset_path (type a) (announced a dataset_path σ)).1
  = Ok filelist →
  is_file (fs σ) (join W (output_path a) [dataset_path; compression a; "videos"]) = false →
  (main_dataset W a base_url model_url dataset σ).1 = Ok tt
  ∧ jobs (trace (main_dataset W a base_url model_url dataset σ).2)
    = jobs (trace σ)
      ++ ((λ f, ((base_url +:+ dataset_path +:+ "/" +:+ compression a +:+ "/videos/") +:+ f,
                 w_join W (join W (output_path a) [dataset_path; compression a; "videos"]) f))
          <$> ((λ stem, stem +:+ ".mp4") <$> limited (num_videos a) filelist)).
Proof.
  intros Hpath Hregular Htype Hfetch Hfile.
  destruct (main_dataset_fetched a base_url model_url dataset dataset_path filelist σ
              Hpath Hregular Hfetch) as (σ2 & -> & Hfs2 & Hjobs2 & _).
  unfold download_type. rewrite Htype. simpl.
  rewrite <- Hfs2 in Hfile. rewrite <- Hjobs2.
  apply (batch_in_try _ _ _ _ _ σ2 Hfile).
Qed.

Lemma main_dataset_masks (a : args) (base_url model_url dataset dataset_path : string)
    (filelist : list string) σ :
  DATASETS !! dataset = Some dataset_path →
  str_in "original_youtube_videos" dataset = false →
  type a = "masks" →
  str_in "original" dataset = false →
  str_in "FaceShifter" dataset = false →
  (fetch_filelist W base_url dataset_path (type a) (announced a dataset_path σ)).1
  = Ok filelist →
  is_file (fs σ) (join W (output_path a) [dataset_path; "videos"]) = false →
  (main_dataset W a base_url model_url dataset σ).1 = Ok tt
  ∧ jobs (trace (main_dataset W a base_url model_url dataset σ).2)
    = jobs (trace σ)
      ++ ((λ f, ((base_url +:+ dataset_path +:+ "/masks/videos/") +:+ f,
                 w_join W (join W (output_path a) [dataset_path; "videos"]) f))
          <$> ((λ stem, stem +:+ ".mp4") <$> limited (num_videos a) filelist)).
Proof.
  intros Hpath Hregular Htype Horig Hshift Hfetch Hfile.
  destruct (main_dataset_fetched a base_url model_url dataset dataset_path filelist σ
              Hpath Hregular Hfetch) as (σ2 & -> & Hfs2 & Hjobs2 & _).
  unfold download_type. rewrite Htype, Horig, Hshift. simpl.
  rewrite <- Hfs2 in Hfile. rewrite <- Hjobs2.
  apply (batch_in_try _ _ _ _ _ σ2 Hfile).
Qed.

End Datasets.

(** X8.  Videos of any regular dataset: when the manifest step yields a
    list and [os.makedirs] succeeds on the output directory, the loop body
    returns and has attempted one download per entry the limit lets
    through, in order: entry [stem] is fetched from
    [base/path/compression/videos/stem.mp4] and saved as [stem.mp4] under
    [output/path/compression/videos]. *)
Theorem dataset_videos_jobs (W : world) (a : args)
    (base_url model_url dataset dataset_path : string) (filelist : list string) (σ : state) :
  DATASETS !! dataset = Some dataset_path →
  str_in "original_youtube_videos" dataset = false →
  type a = "videos" →
  (fetch_filelist W base_url dataset_path (type a) (announced a dataset_path σ)).1
  = Ok filelist →
  (makedirs (join W (output_path a) [dataset_path; compression a; "videos"]) σ).1 = Ok tt →
  (main_dataset W a base_url model_url dataset σ).1 = Ok tt
  ∧ jobs (trace (main_dataset W a base_url model_url dataset σ).2)
    = jobs (trace σ)
      ++ ((λ f, ((base_url +:+ dataset_path +:+ "/" +:+ compression a +:+ "/videos/") +:+ f,
                 w_join W (join W (output_path a) [dataset_path; compression a; "videos"]) f))
          <$> ((λ stem, stem +:+ ".mp4") <$> limited (num_videos a) filelist)).
Proof.
  intros Hpath Hregular Htype Hfetch Hmade. apply makedirs_returns in Hmade.
  by apply main_dataset_videos.
Qed.

Lemma dataset_videos_jobs_witness :
  let W := W_actors in
  let a := cli "DeepFakeDetection_original" "videos" (Some 1%Z) in
  let base_url := "http://canis.vc.in.tum.de:8100/v3/" in
  let dataset := "DeepFakeDetection_original" in
  let dataset_path := "original_sequences/actors" in
  let filelist := ["01__kitchen_pan"; "02__walking_outside"] in
  let σ := initial ∅ in
  (DATASETS !! dataset = Some dataset_path
   ∧ str_in "original_youtube_videos" dataset = false
   ∧ type a = "videos"
   ∧ (fetch_filelist W base_url dataset_path (type a) (announced a dataset_path σ)).1
     = Ok filelist
   ∧ (makedirs (join W (output_path a) [dataset_path; compression a; "videos"]) σ).1
     = Ok tt)
  ∧ (main_dataset W a base_url base_url dataset σ).1 = Ok tt
  ∧ jobs (trace (main_dataset W a base_url base_url dataset σ).2)
    = jobs (trace σ)
      ++ ((λ f, ((base_url +:+ dataset_path +:+ "/" +:+ compression a +:+ "/videos/") +:+ f,
                 w_join W (join W (output_path a) [dataset_path; compression a; "videos"]) f))
          <$> ((λ stem, stem +:+ ".mp4") <$> limited (num_videos a) filelist)).
Proof.
  intros W a base_url dataset dataset_path filelist σ.
  split; [repeat split; reflexivity|].
  apply (dataset_videos_jobs W a base_url base_url dataset dataset_path filelist σ);
    reflexivity.
Defined.

(** X9.  Masks of a dataset that has them (its name contains neither
    [original] nor [FaceShifter]), when the manifest step yields a list
    and [os.makedirs] succeeds on the output directory: one download per
    entry the limit lets
    through, fetched from [base/path/masks/videos/stem.mp4] and saved as
    [stem.mp4] under [output/path/videos]; the compression level plays no
    part in either. *)
Theorem dataset_masks_jobs (W : world) (a : args)
    (base_url model_url dataset dataset_path : string) (filelist : list string) (σ : state) :
  DATASETS !! dataset = Some dataset_path →
  str_in "original_youtube_videos" dataset = false →
  type a = "masks" →
  str_in "original" dataset = false →
  str_in "FaceShifter" dataset = false →
  (fetch_filelist W base_url dataset_path (type a) (announced a dataset_path σ)).1
  = Ok filelist →
  (makedirs (join W (output_path a) [dataset_path; "videos"]) σ).1 = Ok tt →
  (main_dataset W a base_url model_url dataset σ).1 = Ok tt
  ∧ jobs (trace (main_dataset W a base_url model_url dataset σ).2)
    = jobs (trace σ)
      ++ ((λ f, ((base_url +:+ dataset_path +:+ "/masks/videos/") +:+ f,
                 w_join W (join W (output_path a) [dataset_path; "videos"]) f))
          <$> ((λ stem, stem +:+ ".mp4") <$> limited (num_videos a) filelist)).
Proof.
  intros Hpath Hregular Htype Horig Hshift Hfetch Hmade. apply makedirs_returns in Hmade.
  by apply main_dataset_masks.
Qed.

Lemma dataset_masks_jobs_witness :
  let W := W_hello in
  let a := cli "Deepfakes" "masks" None in
  let base_url := "http://canis.vc.in.tum.de:8100/v3/" in
  let dataset := "Deepfakes" in
  let dataset_path := "manipulated_sequences/Deepfakes" in
  let filelist := ["a_b"; "c_d"; "b_a"; "d_c"] in
  let σ := initial ∅ in
  (DATASETS !! dataset = Some dataset_path
   ∧ str_in "original_youtube_videos" dataset = false
   ∧ type a = "masks"
   ∧ str_in "original" dataset = false
   ∧ str_in "FaceShifter" dataset = false
   ∧ (fetch_filelist W base_url dataset_path (type a) (announced a dataset_path σ)).1
     = Ok filelist
   ∧ (makedirs (join W (output_path a) [dataset_path; "videos"]) σ).1 = Ok tt)
  ∧ (main_dataset W a base_url base_url dataset σ).1 = Ok tt
  ∧ jobs (trace (main_dataset W a base_url base_url dataset σ).2)
    = jobs (trace σ)
      ++ ((λ f, ((base_url +:+ dataset_path +:+ "/masks/videos/") +:+ f,
                 w_join W (join W (output_path a) [dataset_path; "videos"]) f))
          <$> ((λ stem, stem +:+ ".mp4") <$> limited (num_videos a) filelist)).
Proof.
  intros W a base_url dataset dataset_path filelist σ.
  split; [repeat split; reflexivity|].
  apply (dataset_masks_jobs W a base_url base_url dataset dataset_path filelist σ);
    reflexivity.
Defined.

(** X10.  When a regular file sits where the output directory of the
    videos should be, the dataset is given up before any download: the
    loop body returns, adds no download job, and its last line is the
    error line of the dataset, for a FileExistsError. *)
Theorem dataset_videos_blocked (W : world) (a : args)
    (base_url model_url dataset dataset_path : string) (filelist : list string) (σ : state) :
  DATASETS !! dataset = Some dataset_path →
  str_in "original_youtube_videos" dataset = false →
  type a = "videos" →
  (fetch_filelist W base_url dataset_path (type a) (announced a dataset_path σ)).1
  = Ok filelist →
  is_file (fs σ) (join W (output_path a) [dataset_path; compression a; "videos"]) = true →
  (main_dataset W a base_url model_url dataset σ).1 = Ok tt
  ∧ jobs (trace (main_dataset W a base_url model_url dataset σ).2) = jobs (trace σ)
  ∧ ∃ e, cls_exn e = "FileExistsError"
         ∧ last (stdout (trace (main_dataset W a base_url model_url dataset σ).2))
           = Some ("Error processing dataset " +:+ dataset +:+ ": " +:+ str_exn e).
Proof.
  intros Hpath Hregular Htype Hfetch Hfile.
  destruct (main_dataset_fetched W a base_url model_url dataset dataset_path filelist σ
              Hpath Hregular Hfetch) as (σ2 & -> & Hfs2 & Hjobs2 & _).
  unfold download_type. rewrite Htype. simpl.
  rewrite <- Hfs2 in Hfile. rewrite (batch_blocked W _ _ _ _ _ σ2 Hfile). simpl.
  rewrite !jobs_app, !stdout_app, Hjobs2. simpl. rewrite !app_nil_r.
  split; [done|]. split; [done|]. eexists (Exn "FileExistsError" _).
  split; [done|]. by rewrite last_snoc.
Qed.

Lemma dataset_videos_blocked_witness :
  let W := W_hello in
  let a := cli "FaceSwap" "videos" None in
  let base_url := "http://canis.vc.in.tum.de:8100/v3/" in
  let dataset := "FaceSwap" in
  let dataset_path := "manipulated_sequences/FaceSwap" in
  let filelist := ["a_b"; "c_d"; "b_a"; "d_c"] in
  let σ := initial {[ "out/manipulated_sequences/FaceSwap/c23/videos" := File [] ]} in
  (DATASETS !! dataset = Some dataset_path
   ∧ str_in "original_youtube_videos" dataset = false
   ∧ type a = "videos"
   ∧ (fetch_filelist W base_url dataset_path (type a) (announced a dataset_path σ)).1
     = Ok filelist
   ∧ is_file (fs σ) (join W (output_path a) [dataset_path; compression a; "videos"]) = true)
  ∧ (main_dataset W a base_url base_url dataset σ).1 = Ok tt
  ∧ jobs (trace (main_dataset W a base_url base_url dataset σ).2) = jobs (trace σ)
  ∧ ∃ e, cls_exn e = "FileExistsError"
         ∧ last (stdout (trace (main_dataset W a base_url base_url dataset σ).2))
           = Some ("Error processing dataset " +:+ dataset +:+ ": " +:+ str_exn e).
Proof.
  intros W a base_url dataset dataset_path filelist σ.
  split; [repeat split; reflexivity|].
  apply (dataset_videos_blocked W a base_url base_url dataset dataset_path filelist σ);
    reflexivity.
Defined.

(** X11.  With a limit no larger than the number of pairs, and once
    [os.makedirs] has succeeded on the output directory, only pairs in
    their own order are downloaded: the reversed names come after all of
    them in the list, and the limit cuts them off. *)
Theorem limit_drops_reversed (W : world) (a : args)
    (base_url model_url dataset dataset_path : string) (file_pairs : list (list string))
    (n : Z) (σ : state) :
  DATASETS !! dataset = Some dataset_path →
  str_in "original_youtube_videos" dataset = false →
  joins_pairs dataset_path = true →
  type a = "videos" →
  num_videos a = Some n →
  (0 < n ≤ Z.of_nat (length file_pairs))%Z →
  w_filelist W (asked σ) (base_url +:+ "/" +:+ FILELIST_URL) = Ok file_pairs →
  (makedirs (join W (output_path a) [dataset_path; compression a; "videos"]) σ).1 = Ok tt →
  jobs (trace (main_dataset W a base_url model_url dataset σ).2)
  = jobs (trace σ)
    ++ ((λ f, ((base_url +:+ dataset_path +:+ "/" +:+ compression a +:+ "/videos/") +:+ f,
               w_join W (join W (output_path a) [dataset_path; compression a; "videos"]) f))
        <$> ((λ stem, stem +:+ ".mp4")
             <$> take (Z.to_nat n) (str_join "_" <$> file_pairs))).
Proof.
  intros Hpath Hregular Hjoins Htype Hlimit Hn Hanswer Hfile.
  apply makedirs_returns in Hfile.
  pose proof (fetch_filelist_pairs W base_url dataset_path (type a) file_pairs
                (announced a dataset_path σ) Hjoins Hanswer) as Hfetch.
  apply (f_equal fst) in Hfetch. simpl in Hfetch. rewrite Htype in Hfetch at 2.
  simpl in Hfetch.
  destruct (main_dataset_videos W a base_url model_url dataset dataset_path _ σ
              Hpath Hregular Htype Hfetch Hfile) as [_ ->].
  rewrite Hlimit. unfold limited.
  rewrite (proj2 (Z.ltb_lt 0 n)) by lia.
  rewrite take_app_le; [done|]. rewrite length_fmap. lia.
Qed.

Lemma limit_drops_reversed_witness :
  let W := W_hello in
  let a := cli "FaceSwap" "videos" (Some 2%Z) in
  let base_url := "http://canis.vc.in.tum.de:8100/v3/" in
  let dataset := "FaceSwap" in
  let dataset_path := "manipulated_sequences/FaceSwap" in
  let σ := initial ∅ in
  (DATASETS !! dataset = Some dataset_path
   ∧ str_in "original_youtube_videos" dataset = false
   ∧ joins_pairs dataset_path = true
   ∧ type a = "videos"
   ∧ num_videos a = Some 2%Z
   ∧ (0 < 2 ≤ Z.of_nat (length ab_cd))%Z
   ∧ w_filelist W (asked σ) (base_url +:+ "/" +:+ FILELIST_URL) = Ok ab_cd
   ∧ (makedirs (join W (output_path a) [dataset_path; compression a; "videos"]) σ).1
     = Ok tt)
  ∧ jobs (trace (main_dataset W a base_url base_url dataset σ).2)
    = jobs (trace σ)
      ++ ((λ f, ((base_url +:+ dataset_path +:+ "/" +:+ compression a +:+ "/videos/") +:+ f,
                 w_join W (join W (output_path a) [dataset_path; compression a; "videos"]) f))
          <$> ((λ stem, stem +:+ ".mp4") <$> take (Z.to_nat 2) (str_join "_" <$> ab_cd))).
Proof.
  intros W a base_url dataset dataset_path σ.
  split; [repeat split; try reflexivity; simpl; lia|].
  apply (limit_drops_reversed W a base_url base_url dataset dataset_path ab_cd 2 σ);
    try reflexivity.
  simpl; lia.
Defined.

(** X12.  For the dataset [original] the pairs of the manifest are not
    joined: every stem of every pair is a file of its own, in the order
    of the manifest, whatever the asset type. *)
Theorem original_stems_flattened (W : world) (base_url c_type : string)
    (file_pairs : list (list string)) (σ : state) :
  w_filelist W (asked σ) (base_url +:+ "/" +:+ FILELIST_URL) = Ok file_pairs →
  DATASETS !! "original" = Some "original_sequences/youtube"
  ∧ (fetch_filelist W base_url "original_sequences/youtube" c_type σ).1
    = Ok (concat file_pairs).
Proof.
  intros Hanswer. split; [reflexivity|].
  unfold fetch_filelist.
  change (str_in "DeepFakeDetection" "original_sequences/youtube"
          || str_in "actors" "original_sequences/youtube") with false.
  change (str_in "original" "original_sequences/youtube") with true.
  cbv iota. unfold urlopen_filelist, bind, emit, ask. simpl. by rewrite Hanswer.
Qed.

Lemma original_stems_flattened_witness :
  w_filelist W_hello (asked (initial ∅))
    ("http://canis.vc.in.tum.de:8100/v3/" +:+ "/" +:+ FILELIST_URL) = Ok ab_cd
  ∧ DATASETS !! "original" = Some "original_sequences/youtube"
  ∧ (fetch_filelist W_hello "http://canis.vc.in.tum.de:8100/v3/"
       "original_sequences/youtube" "models" (initial ∅)).1
    = Ok (concat ab_cd).
Proof.
  split; [reflexivity|].
  apply (original_stems_flattened W_hello "http://canis.vc.in.tum.de:8100/v3/" "models"
           ab_cd (initial ∅)).
  reflexivity.
Defined.

Section Failures.

Context (W : world).

Lemma main_dataset_manifest_error (a : args) (base_url model_url dataset dataset_path : string)
    (e : exn) σ :
  DATASETS !! dataset = Some dataset_path →
  str_in "original_youtube_videos" dataset = false →
  (fetch_filelist W base_url dataset_path (type a) (announced a dataset_path σ)).1
  = Raise e →
  let run := main_dataset W a base_url model_url dataset σ in
  run.1 = Ok tt
  ∧ fs run.2 = fs σ
  ∧ jobs (trace run.2) = jobs (trace σ)
  ∧ stdout (trace run.2)
    = stdout (trace σ)
      ++ ["Downloading " +:+ type a +:+ " of dataset " +:+ dquote +:+ dataset_path +:+ dquote;
          "Error processing dataset " +:+ dataset +:+ ": " +:+ str_exn e].
Proof.
  intros Hpath Hregular Hfetch run. subst run.
  rewrite (main_dataset_regular W a base_url model_url dataset dataset_path σ Hpath Hregular).
  remember (announced a dataset_path σ) as σ0 eqn:Hσ0.
  pose proof (fetch_filelist_stable W base_url dataset_path (type a) σ0) as [Hfs1 _].
  pose proof (fetch_filelist_request W base_url dataset_path (type a) σ0) as Ht1.
  destruct (fetch_filelist W base_url dataset_path (type a) σ0) as [r1 σ1] eqn:Hrun1.
  simpl in Hfetch, Hfs1, Ht1. subst r1.
  rewrite (try_bind_raise _ _ _ _ _ _ Hrun1). simpl.
  rewrite Hfs1, Ht1, Hσ0. unfold announced. simpl.
  rewrite !jobs_app, !stdout_app. simpl. rewrite !app_nil_r, <- app_assoc. done.
Qed.

End Failures.

(** X13.  When fetching or reading the manifest of a regular dataset
    raises, the dataset is given up and the loop goes on: the loop body
    returns, the file system is untouched, no download is attempted, and
    after the line announcing the dataset the only line printed is its
    error line with the message of the exception. *)
Theorem manifest_error_skips_dataset (W : world) (a : args)
    (base_url model_url dataset dataset_path : string) (e : exn) (σ : state) :
  DATASETS !! dataset = Some dataset_path →
  str_in "original_youtube_videos" dataset = false →
  (fetch_filelist W base_url dataset_path (type a) (announced a dataset_path σ)).1
  = Raise e →
  (main_dataset W a base_url model_url dataset σ).1 = Ok tt
  ∧ fs (main_dataset W a base_url model_url dataset σ).2 = fs σ
  ∧ jobs (trace (main_dataset W a base_url model_url dataset σ).2) = jobs (trace σ)
  ∧ stdout (trace (main_dataset W a base_url model_url dataset σ).2)
    = stdout (trace σ)
      ++ ["Downloading " +:+ type a +:+ " of dataset " +:+ dquote +:+ dataset_path +:+ dquote;
          "Error processing dataset " +:+ dataset +:+ ": " +:+ str_exn e].
Proof. apply main_dataset_manifest_error. Qed.

Lemma manifest_error_skips_dataset_witness :
  let W := W_hello in
  let a := cli "DeepFakeDetection" "videos" None in
  let base_url := "http://canis.vc.in.tum.de:8100/v3/" in
  let dataset := "DeepFakeDetection" in
  let dataset_path := "manipulated_sequences/DeepFakeDetection" in
  let e := Exn "URLError" "<urlopen error [Errno 111] Connection refused>" in
  let σ := initial ∅ in
  (DATASETS !! dataset = Some dataset_path
   ∧ str_in "original_youtube_videos" dataset = false
   ∧ (fetch_filelist W base_url dataset_path (type a) (announced a dataset_path σ)).1
     = Raise e)
  ∧ (main_dataset W a base_url base_url dataset σ).1 = Ok tt
  ∧ fs (main_dataset W a base_url base_url dataset σ).2 = fs σ
  ∧ jobs (trace (main_dataset W a base_url base_url dataset σ).2) = jobs (trace σ)
  ∧ stdout (trace (main_dataset W a base_url base_url dataset σ).2)
    = stdout (trace σ)
      ++ ["Downloading " +:+ type a +:+ " of dataset " +:+ dquote +:+ dataset_path +:+ dquote;
          "Error processing dataset " +:+ dataset +:+ ": " +:+ str_exn e].
Proof.
  intros W a base_url dataset dataset_path e σ.
  split; [repeat split; reflexivity|].
  apply (manifest_error_skips_dataset W a base_url base_url dataset dataset_path e σ);
    reflexivity.
Defined.

(** X14.  A cohort manifest that arrives without the key of the dataset
    ([actors] for a path containing [actors], [DeepFakesDetection]
    otherwise) ends the dataset with a KeyError: the error line shows the
    quoted key, and nothing is downloaded. *)
Theorem missing_cohort_key (W : world) (a : args)
    (base_url model_url dataset dataset_path : string)
    (filepaths : gmap string (list string)) (key : string) (σ : state) :
  key = (if str_in "actors" dataset_path then "actors" else "DeepFakesDetection") →
  DATASETS !! dataset = Some dataset_path →
  str_in "original_youtube_videos" dataset = false →
  str_in "DeepFakeDetection" dataset_path || str_in "actors" dataset_path = true →
  w_detection W (asked σ) (base_url +:+ "/" +:+ DEEPFEAKES_DETECTION_URL) = Ok filepaths →
  filepaths !! key = None →
  (main_dataset W a base_url model_url dataset σ).1 = Ok tt
  ∧ jobs (trace (main_dataset W a base_url model_url dataset σ).2) = jobs (trace σ)
  ∧ last (stdout (trace (main_dataset W a base_url model_url dataset σ).2))
    = Some ("Error processing dataset " +:+ dataset +:+ ": '" +:+ key +:+ "'").
Proof.
  intros Hkeyname Hpath Hregular Hcohort Hanswer Hkey.
  assert (Hfetch : (fetch_filelist W base_url dataset_path (type a)
                      (announced a dataset_path σ)).1
                   = Raise (Exn "KeyError" ("'" +:+ key +:+ "'"))).
  { unfold fetch_filelist. rewrite Hcohort.
    unfold urlopen_detection, bind, emit, ask. simpl. rewrite Hanswer. simpl.
    subst key. unfold getitem.
    destruct (str_in "actors" dataset_path); by rewrite Hkey. }
  clear Hkeyname.
  destruct (main_dataset_manifest_error W a base_url model_url dataset dataset_path _ σ
              Hpath Hregular Hfetch) as (Hok & _ & Hjobs & Hout).
  split; [done|]. split; [done|].
  rewrite Hout.
  match goal with
  | |- last (?l ++ [?x; ?y]) = _ => change (l ++ [x; y]) with (l ++ ([x] ++ [y]))
  end.
  by rewrite app_assoc, last_snoc.
Qed.

Lemma missing_cohort_key_witness :
  let W := posix_world net_hello (Ok ab_cd) (Ok {[ "actors" := ["01__kitchen_pan"] ]}) in
  let a := cli "DeepFakeDetection" "videos" None in
  let base_url := "http://canis.vc.in.tum.de:8100/v3/" in
  let dataset := "DeepFakeDetection" in
  let dataset_path := "manipulated_sequences/DeepFakeDetection" in
  let filepaths : gmap string (list string) := {[ "actors" := ["01__kitchen_pan"] ]} in
  let σ := initial ∅ in
  ("DeepFakesDetection"
   = (if str_in "actors" dataset_path then "actors" else "DeepFakesDetection")
   ∧ DATASETS !! dataset = Some dataset_path
   ∧ str_in "original_youtube_videos" dataset = false
   ∧ str_in "DeepFakeDetection" dataset_path || str_in "actors" dataset_path = true
   ∧ w_detection W (asked σ) (base_url +:+ "/" +:+ DEEPFEAKES_DETECTION_URL) = Ok filepaths
   ∧ filepaths !! "DeepFakesDetection" = None)
  ∧ (main_dataset W a base_url base_url dataset σ).1 = Ok tt
  ∧ jobs (trace (main_dataset W a base_url base_url dataset σ).2) = jobs (trace σ)
  ∧ last (stdout (trace (main_dataset W a base_url base_url dataset σ).2))
    = Some ("Error processing dataset " +:+ dataset +:+ ": '" +:+ "DeepFakesDetection" +:+ "'").
Proof.
  intros W a base_url dataset dataset_path filepaths σ.
  split; [repeat split; reflexivity|].
  apply (missing_cohort_key W a base_url base_url dataset dataset_path filepaths
           "DeepFakesDetection" σ);
    reflexivity.
Defined.

(** ** The whole run *)

Section Run.

Context (W : world).

Lemma main_dataset_one_manifest (a : args) (base_url model_url dataset dataset_path : string) σ :
  DATASETS !! dataset = Some dataset_path →
  str_in "original_youtube_videos" dataset = false →
  (main_dataset W a base_url model_url dataset σ).1 = Ok tt
  ∧ manifests (trace (main_dataset W a base_url model_url dataset σ).2)
    = manifests (trace σ) ++ [manifest_url base_url dataset_path].
Proof.
  intros Hpath Hregular.
  split; [by apply (main_dataset_returns W a base_url model_url dataset dataset_path)|].
  destruct (fetch_filelist W base_url dataset_path (type a) (announced a dataset_path σ))
    as [[filelist|e] σ1] eqn:Hrun1.
  - destruct (main_dataset_fetched W a base_url model_url dataset dataset_path filelist σ
                Hpath Hregular) as (σ2 & -> & _ & _ & <-); [by rewrite Hrun1|].
    apply emits_only_manifests. apply emits_only_try.
    + apply download_type_quiet.
    + intros e. apply emits_only_emit. exact I.
  - rewrite (main_dataset_regular W a base_url model_url dataset dataset_path σ Hpath Hregular).
    rewrite (try_bind_raise _ _ _ _ _ _ Hrun1). simpl.
    pose proof (fetch_filelist_request W base_url dataset_path (type a)
                  (announced a dataset_path σ)) as Ht1.
    rewrite Hrun1 in Ht1. simpl in Ht1. rewrite Ht1. unfold announced. simpl.
    rewrite !manifests_app. simpl. by rewrite !app_nil_r.
Qed.

(** The loop over datasets that all are regular. *)
Lemma datasets_loop (a : args) (base_url model_url : string)
    (datasets paths : list string) σ :
  Forall2 (λ dataset dataset_path,
             DATASETS !! dataset = Some dataset_path
             ∧ str_in "original_youtube_videos" dataset = false) datasets paths →
  (for_each datasets (main_dataset W a base_url model_url) σ).1 = Ok tt
  ∧ manifests (trace (for_each datasets (main_dataset W a base_url model_url) σ).2)
    = manifests (trace σ) ++ (manifest_url base_url <$> paths).
Proof.
  intros Hall. revert σ.
  induction Hall as [|dataset dataset_path datasets paths [Hpath Hregular] _ IH]; intros σ.
  - simpl. by rewrite app_nil_r.
  - destruct (main_dataset_one_manifest a base_url model_url dataset dataset_path σ
                Hpath Hregular) as [Hok Hman].
    simpl.
    destruct (main_dataset W a base_url model_url dataset σ) as [r σ1] eqn:Hrun.
    simpl in Hok, Hman. subst r.
    rewrite (bind_ok _ _ _ _ _ Hrun).
    destruct (IH σ1) as [Hok' Hman'].
    rewrite Hok', Hman', Hman, <- app_assoc. done.
Qed.

(** Past the terms of use and the creation of the output directory. *)
Lemma main_started (a : args) (answer : string) σ :
  w_input W (asked σ) "Press Enter to continue, or CTRL-C to exit." = Ok answer →
  is_file (fs σ) (output_path a) = false →
  ∃ σ3,
    main W a σ
    = for_each (if negb (dataset a =? "all")%string then [dataset a] else ALL_DATASETS)
        (main_dataset W a (get_server_url (server a) +:+ "v3/")
           ((get_server_url (server a) +:+ "v3/")
            +:+ "manipulated_sequences/Deepfakes/models/"))
        σ3
    ∧ manifests (trace σ3) = manifests (trace σ).
Proof.
  intros Hanswer Hfile. unfold main.
  unfold bind at 1. simpl. unfold bind at 1. unfold input at 1.
  unfold bind at 1. simpl. unfold bind at 1. simpl. rewrite Hanswer. simpl.
  match goal with
  | |- context [bind (makedirs ?p) ?k ?s] =>
      destruct (makedirs_ok p s Hfile) as (σ3 & Hmk & Ht);
      rewrite (bind_ok _ _ _ _ _ Hmk)
  end.
  exists σ3. split; [done|]. rewrite Ht. simpl.
  rewrite !manifests_app. simpl. by rewrite !app_nil_r.
Qed.

End Run.

Lemma all_datasets_regular :
  Forall2 (λ dataset dataset_path,
             DATASETS !! dataset = Some dataset_path
             ∧ str_in "original_youtube_videos" dataset = false)
    ALL_DATASETS
    ["original_sequences/youtube"; "original_sequences/actors";
     "manipulated_sequences/Deepfakes"; "manipulated_sequences/DeepFakeDetection";
     "manipulated_sequences/Face2Face"; "manipulated_sequences/FaceShifter";
     "manipulated_sequences/FaceSwap"; "manipulated_sequences/NeuralTextures"].
Proof. repeat constructor. Qed.

(** X15.  Each regular dataset costs exactly one manifest request,
    whatever the asset type and whatever happens afterwards: the request
    goes to the cohort manifest for a path containing [DeepFakeDetection]
    or [actors], to the pair manifest otherwise. *)
Theorem one_manifest_per_dataset (W : world) (a : args)
    (base_url model_url dataset dataset_path : string) (σ : state) :
  DATASETS !! dataset = Some dataset_path →
  str_in "original_youtube_videos" dataset = false →
  manifests (trace (main_dataset W a base_url model_url dataset σ).2)
  = manifests (trace σ) ++ [manifest_url base_url dataset_path].
Proof.
  intros Hpath Hregular.
  apply (main_dataset_one_manifest W a base_url model_url dataset dataset_path σ Hpath Hregular).
Qed.

Lemma one_manifest_per_dataset_witness :
  let a := cli "FaceSwap" "models" None in
  let base_url := "http://canis.vc.in.tum.de:8100/v3/" in
  (DATASETS !! "FaceSwap" = Some "manipulated_sequences/FaceSwap"
   ∧ str_in "original_youtube_videos" "FaceSwap" = false)
  ∧ manifests (trace (main_dataset W_down a base_url base_url "FaceSwap" (initial ∅)).2)
    = manifests (trace (initial ∅))
      ++ [manifest_url base_url "manipulated_sequences/FaceSwap"].
Proof.
  intros a base_url. split; [split; reflexivity|].
  apply (one_manifest_per_dataset W_down a base_url base_url "FaceSwap"
           "manipulated_sequences/FaceSwap" (initial ∅)); reflexivity.
Defined.

(** X16.  With [--dataset all], once the terms are confirmed and
    [os.makedirs] has succeeded on the output path, [main] returns normally whatever the
    network does, and has asked for a manifest eight times, once per
    dataset of [ALL_DATASETS] and in their order: the manifest is fetched
    anew for every dataset. *)
Theorem all_refetches_manifest (W : world) (a : args) (answer : string) (σ : state) :
  dataset a = "all" →
  w_input W (asked σ) "Press Enter to continue, or CTRL-C to exit." = Ok answer →
  (makedirs (output_path a) σ).1 = Ok tt →
  let base_url := get_server_url (server a) +:+ "v3/" in
  let pairs := base_url +:+ "/" +:+ FILELIST_URL in
  let cohorts := base_url +:+ "/" +:+ DEEPFEAKES_DETECTION_URL in
  (main W a σ).1 = Ok tt
  ∧ manifests (trace (main W a σ).2)
    = manifests (trace σ)
      ++ [pairs; cohorts; pairs; cohorts; pairs; pairs; pairs; pairs].
Proof.
  intros Hall Hanswer Hfile base_url pairs cohorts. apply makedirs_returns in Hfile.
  destruct (main_started W a answer σ Hanswer Hfile) as (σ3 & -> & <-).
  rewrite Hall. simpl.
  apply (datasets_loop W a base_url _ ALL_DATASETS _ σ3 all_datasets_regular).
Qed.

Lemma all_refetches_manifest_witness :
  let a := cli "all" "masks" (Some 1%Z) in
  let σ := initial ∅ in
  let base_url := get_server_url (server a) +:+ "v3/" in
  let pairs := base_url +:+ "/" +:+ FILELIST_URL in
  let cohorts := base_url +:+ "/" +:+ DEEPFEAKES_DETECTION_URL in
  (dataset a = "all"
   ∧ w_input W_down (asked σ) "Press Enter to continue, or CTRL-C to exit." = Ok EmptyString
   ∧ (makedirs (output_path a) σ).1 = Ok tt)
  ∧ (main W_down a σ).1 = Ok tt
  ∧ manifests (trace (main W_down a σ).2)
    = manifests (trace σ)
      ++ [pairs; cohorts; pairs; cohorts; pairs; pairs; pairs; pairs].
Proof.
  intros a σ base_url pairs cohorts. split; [repeat split; reflexivity|].
  apply (all_refetches_manifest W_down a EmptyString σ); reflexivity.
Defined.

(** X17.  For a single dataset of [ALL_DATASETS] too, [main] returns
    normally once the terms are confirmed and [os.makedirs] has succeeded
    on the output path: no failure while a regular dataset is processed ends the
    run. *)
Theorem main_returns (W : world) (a : args) (answer : string) (σ : state) :
  dataset a ∈ ALL_DATASETS →
  w_input W (asked σ) "Press Enter to continue, or CTRL-C to exit." = Ok answer →
  (makedirs (output_path a) σ).1 = Ok tt →
  (main W a σ).1 = Ok tt.
Proof.
  intros Hin Hanswer Hfile. apply makedirs_returns in Hfile.
  destruct (main_started W a answer σ Hanswer Hfile) as (σ3 & -> & _).
  assert (Hone : (negb (dataset a =? "all")%string = true)
                 ∧ ∃ dataset_path, DATASETS !! dataset a = Some dataset_path
                                   ∧ str_in "original_youtube_videos" (dataset a) = false).
  { unfold ALL_DATASETS in Hin. rewrite !elem_of_cons, elem_of_nil in Hin.
    destruct Hin as [->|[->|[->|[->|[->|[->|[->|[->|[]]]]]]]]];
      (split; [reflexivity|]); eexists; split; reflexivity. }
  destruct Hone as (-> & dataset_path & Hpath & Hregular). simpl.
  erewrite bind_ok.
  2:{ rewrite (run_eq _ σ3).
      by rewrite (main_dataset_returns W a _ _ (dataset a) dataset_path σ3 Hpath Hregular). }
  done.
Qed.

Lemma main_returns_witness :
  let a := cli "NeuralTextures" "videos" None in
  let σ := initial ∅ in
  ("NeuralTextures" ∈ ALL_DATASETS
   ∧ w_input W_broken (asked σ) "Press Enter to continue, or CTRL-C to exit." = Ok EmptyString
   ∧ (makedirs (output_path a) σ).1 = Ok tt)
  ∧ (main W_broken a σ).1 = Ok tt.
Proof.
  intros a σ.
  assert (Hin : "NeuralTextures" ∈ ALL_DATASETS)
    by (apply (bool_decide_unpack _); vm_compute; exact I).
  split; [split; [exact Hin | split; reflexivity]|].
  exact (main_returns W_broken a EmptyString σ Hin eq_refl eq_refl).
Defined.

(** X18.  Nothing happens before the terms are confirmed: when [input]
    raises (end of input instead of Enter), [main] raises that exception
    having printed the notice and the prompt only; no request is made and
    the file system is not touched, not even for the output directory. *)
Theorem main_waits_for_confirmation (W : world) (a : args) (e : exn) (σ : state) :
  w_input W (asked σ) "Press Enter to continue, or CTRL-C to exit." = Raise e →
  (main W a σ).1 = Raise e
  ∧ fs (main W a σ).2 = fs σ
  ∧ trace (main W a σ).2
    = trace σ ++ [Stdout "Confirm FaceForensics Terms of Use";
                  Input "Press Enter to continue, or CTRL-C to exit."].
Proof.
  intros Hanswer.
  assert (Hrun : main W a σ
                 = (Raise e,
                    {| fs := fs σ; start_time := start_time σ; asked := S (asked σ);
                       trace := (trace σ ++ [Stdout "Confirm FaceForensics Terms of Use"])
                                ++ [Input "Press Enter to continue, or CTRL-C to exit."];
                       seen := seen σ |})).
  { unfold main. unfold bind at 1. simpl. unfold bind at 1. unfold input at 1.
    unfold bind at 1. simpl. unfold bind at 1. simpl. by rewrite Hanswer. }
  rewrite Hrun. simpl. by rewrite <- app_assoc.
Qed.

Lemma main_waits_for_confirmation_witness :
  let a := cli "all" "videos" None in
  let e := Exn "EOFError" "EOF when reading a line" in
  let σ := initial ∅ in
  w_input W_eof (asked σ) "Press Enter to continue, or CTRL-C to exit." = Raise e
  ∧ (main W_eof a σ).1 = Raise e
  ∧ fs (main W_eof a σ).2 = fs σ
  ∧ trace (main W_eof a σ).2
    = trace σ ++ [Stdout "Confirm FaceForensics Terms of Use";
                  Input "Press Enter to continue, or CTRL-C to exit."].
Proof.
  intros a e σ. split; [reflexivity|].
  apply (main_waits_for_confirmation W_eof a e σ). reflexivity.
Defined.

(** ** The progress hook and the server table *)

Lemma scaled_duration_zero (now started : Q) :
  Qeq_bool (1024 * (now - started)) 0 = true ↔ (now == started)%Q.
Proof.
  rewrite Qeq_bool_iff. destruct now as [n d], started as [n' d'].
  unfold Qeq, Qminus, Qplus, Qopp, Qmult. simpl. lia.
Qed.

Lemma inject_zero (t : Z) : Qeq_bool (inject_Z t) 0 = true ↔ t = 0%Z.
Proof.
  rewrite Qeq_bool_iff. unfold Qeq. simpl. lia.
Qed.

(** X19.  The progress hook at count zero always returns, and only
    stores the clock: nothing is printed.  At any other count it raises
    whenever the clock has not moved since the start time was stored, and
    whenever the total size is zero. *)
Theorem reporthook_raises_when (W : world) (count block_size total_size : Z) (σ : state) :
  (count = 0%Z →
   (reporthook W count block_size total_size σ).1 = Ok tt
   ∧ trace (reporthook W count block_size total_size σ).2 = trace σ
   ∧ start_time (reporthook W count block_size total_size σ).2 = w_time W (asked σ))
  ∧ (count ≠ 0%Z →
     (w_time W (asked σ) == start_time σ)%Q ∨ total_size = 0%Z →
     ∃ e, (reporthook W count block_size total_size σ).1 = Raise e).
Proof.
  unfold reporthook. destruct (Z.eqb_spec count 0) as [->|Hcount].
  { split; [done|]. by intros []. }
  split; [done|]. intros _ Hcause.
  unfold bind, time_time, ask, get_start_time, truediv. simpl.
  pose proof (scaled_duration_zero (w_time W (asked σ)) (start_time σ)) as Hd.
  pose proof (inject_zero total_size) as Ht.
  destruct (Qeq_bool (1024 * (w_time W (asked σ) - start_time σ)) 0); simpl; [eauto|].
  destruct (Qeq_bool (inject_Z total_size) 0); simpl; [eauto|].
  destruct Hcause as [Hsame|Hzero].
  - apply Hd in Hsame. discriminate.
  - apply Ht in Hzero. discriminate.
Qed.

Lemma reporthook_raises_when_witness :
  let σ := (reporthook W_coarse_clock 0 8192 5 (initial ∅)).2 in
  ((0 = 0)%Z
   ∧ (reporthook W_hello 0 8192 5 (initial ∅)).1 = Ok tt
   ∧ trace (reporthook W_hello 0 8192 5 (initial ∅)).2 = trace (initial ∅)
   ∧ start_time (reporthook W_hello 0 8192 5 (initial ∅)).2
     = w_time W_hello (asked (initial ∅)))
  ∧ ((1 ≠ 0)%Z
     ∧ ((w_time W_coarse_clock (asked σ) == start_time σ)%Q ∨ 5%Z = 0%Z)
     ∧ ∃ e, (reporthook W_coarse_clock 1 8192 5 σ).1 = Raise e).
Proof.
  intros σ. split.
  - split; [reflexivity|].
    apply (proj1 (reporthook_raises_when W_hello 0 8192 5 (initial ∅))). reflexivity.
  - assert (Hcount : (1 ≠ 0)%Z) by lia.
    assert (Hcause : (w_time W_coarse_clock (asked σ) == start_time σ)%Q ∨ 5%Z = 0%Z)
      by (left; reflexivity).
    split; [exact Hcount|]. split; [exact Hcause|].
    exact (proj2 (reporthook_raises_when W_coarse_clock 1 8192 5 σ) Hcount Hcause).
Defined.


(** X21.  A server name that is neither [EU2] nor [CA] resolves to the
    EU server: [EU] itself, and every name the table does not know. *)
Theorem get_server_url_default (server : string) :
  server ≠ "EU2" → server ≠ "CA" →
  get_server_url server = "http://canis.vc.in.tum.de:8100/".
Proof.
  intros Heu2 Hca. unfold get_server_url. simpl.
  destruct (decide (server = "EU")) as [->|Heu]; [reflexivity|].
  rewrite !lookup_insert_ne by congruence. by rewrite lookup_empty.
Qed.

Lemma get_server_url_default_witness :
  "US" ≠ "EU2" ∧ "US" ≠ "CA"
  ∧ get_server_url "US" = "http://canis.vc.in.tum.de:8100/".
Proof.
  split; [discriminate|]. split; [discriminate|].
  apply (get_server_url_default "US"); discriminate.
Defined.

(** ** The archives, and errors inside a batch *)

Lemma main_dataset_archive (W : world) (a : args) (base_url model_url : string)
    (dataset dataset_path line name : string) σ :
  DATASETS !! dataset = Some dataset_path →
  str_in "original_youtube_videos" dataset = true →
  line = "Downloading original youtube videos"
         +:+ (if truthy (if negb (str_in "info" dataset_path) then EmptyString else "info")
              then " info" else EmptyString) +:+ "." →
  name = "downloaded_videos"
         +:+ (if negb (str_in "info" dataset_path) then EmptyString else "info") +:+ ".zip" →
  main_dataset W a base_url model_url dataset σ
  = download_file W (base_url +:+ "/" +:+ dataset_path) (w_join W (output_path a) name) true
      (print line σ).2.
Proof.
  intros Hpath Harchive -> ->. unfold main_dataset, getitem.
  rewrite Hpath. unfold bind at 1. simpl. by rewrite Harchive.
Qed.

(** X22.  The two archives are one download each, with progress
    reporting, whatever asset type, compression and limit were asked
    for, and without any manifest request: the videos are saved as
    [downloaded_videos.zip], their info as [downloaded_videosinfo.zip]
    (the suffix is appended without a separator), directly under the
    output path. *)
Theorem archive_jobs (W : world) (a : args) (base_url model_url : string) (σ : state) :
  let videos := main_dataset W a base_url model_url "original_youtube_videos" σ in
  let info := main_dataset W a base_url model_url "original_youtube_videos_info" σ in
  jobs (trace videos.2)
  = jobs (trace σ)
    ++ [(base_url +:+ "/misc/downloaded_youtube_videos.zip",
         w_join W (output_path a) "downloaded_videos.zip")]
  ∧ manifests (trace videos.2) = manifests (trace σ)
  ∧ jobs (trace info.2)
    = jobs (trace σ)
      ++ [(base_url +:+ "/misc/downloaded_youtube_videos_info.zip",
           w_join W (output_path a) "downloaded_videosinfo.zip")]
  ∧ manifests (trace info.2) = manifests (trace σ).
Proof.
  intros videos info. subst videos info.
  rewrite (main_dataset_archive W a base_url model_url "original_youtube_videos"
             "misc/downloaded_youtube_videos.zip"
             "Downloading original youtube videos." "downloaded_videos.zip" σ)
    by reflexivity.
  rewrite (main_dataset_archive W a base_url model_url "original_youtube_videos_info"
             "misc/downloaded_youtube_videos_info.zip"
             "Downloading original youtube videos info." "downloaded_videosinfo.zip" σ)
    by reflexivity.
  rewrite !download_file_jobs.
  rewrite !(emits_only_manifests _ _ (download_file_quiet W _ _ _)).
  simpl. rewrite !jobs_app, !manifests_app. simpl. by rewrite !app_nil_r.
Qed.


